(** * The asynchronous job queue of the traffic API (src/jobs.py)

    A shallow embedding of [AsyncJobQueue]: the job record store, the
    facade operations [submit], [get], [remove] and [cancel], and the
    per-job fan-out controller [_process_job] with its helpers
    [process_location] and [_run_single_location].

    - Python dictionaries are finite maps and the job record is a Rocq
      record; a payload is typed as [submit] documents it (its locations,
      when present, are a list of dictionaries).  [_process_job_on] runs
      the controller on a job whose payload may hold a value that cannot be
      sliced under "locations", and is [_process_job] on the others.
    - The clock, the identifier generator and the worker callable are
      explicit arguments; the calls of the worker are logged.
    - The exceptions the controller handles are explicit control-flow
      results ([flow]), and so is a controller that waits for ever.
    - The queue runs on one event loop: [cancel] has no suspension point,
      and [_process_job] is embedded as one step, which is what it is
      whenever no other coroutine writes to the job while it runs (no
      cancellation arrives during the run). *)

From Stdlib Require Import ZArith Lia.
From stdpp Require Import gmap strings list fin_maps pretty.

Open Scope string_scope.

(** ** Python values *)

(** The values the scheduler inspects.  Containers and floats that it only
    passes along are [VOpaque]: their type name and their truth value are
    all that the code can observe of them. *)
Inductive pyval : Type :=
  | VNone
  | VBool (b : bool)
  | VInt (z : Z)
  | VStr (s : string)
  | VOpaque (tyname : string) (truth : bool).

(** [bool(v)] *)
Definition truthy (v : pyval) : bool :=
  match v with
  | VNone => false
  | VBool b => b
  | VInt z => negb (z =? 0)%Z
  | VStr s => negb (String.eqb s "")
  | VOpaque _ t => t
  end.

(** [type(v).__name__], as it appears in the message of a [TypeError]. *)
Definition type_name (v : pyval) : string :=
  match v with
  | VNone => "NoneType"
  | VBool _ => "bool"
  | VInt _ => "int"
  | VStr _ => "str"
  | VOpaque n _ => n
  end.

(** A [dict] with string keys. *)
Abbreviation pydict := (gmap string pyval).

(** [d.get(k)] *)
Definition dict_get (d : pydict) (k : string) : pyval :=
  default VNone (d !! k).

(** [d.get(k, dflt)] *)
Definition dict_get_default (d : pydict) (k : string) (dflt : pyval) : pyval :=
  default dflt (d !! k).

(** [k in d] *)
Definition dict_has (d : pydict) (k : string) : bool :=
  bool_decide (is_Some (d !! k)).

(** [bool(d)]: a dictionary is true when it is not empty. *)
Definition dict_truthy (d : pydict) : bool :=
  negb (bool_decide (d = ∅)).

(** [a or b] *)
Definition py_or (a b : pyval) : pyval :=
  if truthy a then a else b.

(** What the worker callable may hand back: a dictionary, or any other
    object (on which [.get] raises [AttributeError]). *)
Inductive pyobj : Type :=
  | ODict (d : pydict)
  | OVal (v : pyval).

Definition obj_truthy (o : pyobj) : bool :=
  match o with
  | ODict d => dict_truthy d
  | OVal v => truthy v
  end.

(** [sep.join(items)]: every item has to be a [str]; otherwise a
    [TypeError] naming the first offending position is raised ([inr]). *)
Fixpoint join_items (i : nat) (items : list pyval) : list string + string :=
  match items with
  | [] => inl []
  | VStr s :: rest =>
      match join_items (S i) rest with
      | inl ss => inl (s :: ss)
      | inr e => inr e
      end
  | v :: _ =>
      inr ("sequence item " ++ pretty i ++ ": expected str instance, "
             ++ type_name v ++ " found")
  end.

Definition py_join (sep : string) (items : list pyval) : string + string :=
  match join_items 0 items with
  | inl ss => inl (String.concat sep ss)
  | inr e => inr e
  end.

(** ** The job record *)

Inductive JobStatusEnum : Type :=
  | CANCELED
  | PENDING
  | RUNNING
  | FAILED
  | DONE.

#[global] Instance JobStatusEnum_eq_dec : EqDecision JobStatusEnum.
Proof. solve_decision. Defined.

(** [status in (DONE, FAILED, CANCELED)] *)
Definition is_terminal (s : JobStatusEnum) : bool :=
  match s with
  | DONE | FAILED | CANCELED => true
  | PENDING | RUNNING => false
  end.

(** The payload dictionary, restricted to the keys the queue reads.
    [p_locations = None] is a payload without the key ["locations"];
    likewise for [p_request_base_url].  [payload.get("proxy")] is a value. *)
Record Payload : Type := {
  p_locations : option (list pydict);
  p_proxy : pyval;
  p_request_base_url : option string
}.

(** [job["result"]] *)
Record JobResult : Type := {
  count : nat;
  locations : list pydict
}.

(** One entry of [self._jobs]. *)
Record JobRecord : Type := {
  status : JobStatusEnum;
  payload : Payload;
  result : JobResult;
  error : option string;
  completed : nat;
  failure : nat;
  created_at : Z;
  updated_at : Z;
  cancel_requested : bool;
  _logged_to_db : bool
}.

Definition set_status (s : JobStatusEnum) (j : JobRecord) : JobRecord :=
  {| status := s; payload := payload j; result := result j;
     error := error j; completed := completed j; failure := failure j;
     created_at := created_at j; updated_at := updated_at j;
     cancel_requested := cancel_requested j;
     _logged_to_db := _logged_to_db j |}.

Definition set_result (r : JobResult) (j : JobRecord) : JobRecord :=
  {| status := status j; payload := payload j; result := r;
     error := error j; completed := completed j; failure := failure j;
     created_at := created_at j; updated_at := updated_at j;
     cancel_requested := cancel_requested j;
     _logged_to_db := _logged_to_db j |}.

Definition set_error (e : option string) (j : JobRecord) : JobRecord :=
  {| status := status j; payload := payload j; result := result j;
     error := e; completed := completed j; failure := failure j;
     created_at := created_at j; updated_at := updated_at j;
     cancel_requested := cancel_requested j;
     _logged_to_db := _logged_to_db j |}.

Definition set_completed (n : nat) (j : JobRecord) : JobRecord :=
  {| status := status j; payload := payload j; result := result j;
     error := error j; completed := n; failure := failure j;
     created_at := created_at j; updated_at := updated_at j;
     cancel_requested := cancel_requested j;
     _logged_to_db := _logged_to_db j |}.

Definition set_failure (n : nat) (j : JobRecord) : JobRecord :=
  {| status := status j; payload := payload j; result := result j;
     error := error j; completed := completed j; failure := n;
     created_at := created_at j; updated_at := updated_at j;
     cancel_requested := cancel_requested j;
     _logged_to_db := _logged_to_db j |}.

Definition set_updated_at (t : Z) (j : JobRecord) : JobRecord :=
  {| status := status j; payload := payload j; result := result j;
     error := error j; completed := completed j; failure := failure j;
     created_at := created_at j; updated_at := t;
     cancel_requested := cancel_requested j;
     _logged_to_db := _logged_to_db j |}.

Definition set_cancel_requested (b : bool) (j : JobRecord) : JobRecord :=
  {| status := status j; payload := payload j; result := result j;
     error := error j; completed := completed j; failure := failure j;
     created_at := created_at j; updated_at := updated_at j;
     cancel_requested := b;
     _logged_to_db := _logged_to_db j |}.

(** ** The worker callable *)

(** The six positional arguments of [worker_callable]. *)
Record worker_args : Type := {
  lat : pyval;
  lng : pyval;
  storefront_direction : pyval;
  day : pyval;
  time : pyval;
  proxy : pyval
}.

(** How one call of the worker callable ends: it returns an object, or it
    raises an [Exception] whose [str] is [msg]. *)
Inductive outcome : Type :=
  | Returns (o : pyobj)
  | Raises (msg : string).

(** ** The queue and its facade *)

(** An [AsyncJobQueue] object.  The worker callable is external and has
    effects of its own, so its outcome may differ between two calls with
    equal arguments: it is indexed by the position of the location the call
    is made for. *)
Record AsyncJobQueue : Type := {
  worker_callable : nat -> worker_args -> outcome;
  max_workers : Z;
  per_job_concurrency : Z;
  _jobs : gmap string JobRecord;
  _queue : list string;
  _running : bool
}.

Definition set_jobs (m : gmap string JobRecord) (self : AsyncJobQueue)
    : AsyncJobQueue :=
  {| worker_callable := worker_callable self;
     max_workers := max_workers self;
     per_job_concurrency := per_job_concurrency self;
     _jobs := m; _queue := _queue self; _running := _running self |}.

Definition set_queue (l : list string) (self : AsyncJobQueue)
    : AsyncJobQueue :=
  {| worker_callable := worker_callable self;
     max_workers := max_workers self;
     per_job_concurrency := per_job_concurrency self;
     _jobs := _jobs self; _queue := l; _running := _running self |}.

(** [AsyncJobQueue.__init__] *)
Definition init (worker : nat -> worker_args -> outcome)
    (workers concurrency : Z) : AsyncJobQueue :=
  {| worker_callable := worker;
     max_workers := workers;
     per_job_concurrency := concurrency;
     _jobs := ∅; _queue := []; _running := true |}.

(** [submit]: [job_id] is the outcome of [os.urandom(8).hex()], and
    [t_created], [t_updated] are the two readings of [time.time()]. *)
Definition submit (self : AsyncJobQueue) (p : Payload)
    (job_id : string) (t_created t_updated : Z) : AsyncJobQueue * string :=
  let job_record :=
    {| status := PENDING;
       payload := p;
       result := {| count := 0; locations := [] |};
       error := None;
       completed := 0;
       failure := 0;
       created_at := t_created;
       updated_at := t_updated;
       cancel_requested := false;
       _logged_to_db := false |} in
  (set_queue (_queue self ++ [job_id])
     (set_jobs (<[job_id := job_record]> (_jobs self)) self),
   job_id).

(** [get] *)
Definition get (self : AsyncJobQueue) (job_id : string) : option JobRecord :=
  _jobs self !! job_id.

(** [remove]: [dict.pop(job_id, None)] never raises. *)
Definition remove (self : AsyncJobQueue) (job_id : string) : AsyncJobQueue :=
  set_jobs (delete job_id (_jobs self)) self.

(** [cancel]: the new state of the queue and the returned record.  A job
    record is a dictionary with ten keys, hence never false: [not job]
    holds exactly for an unknown identifier. *)
Definition cancel (self : AsyncJobQueue) (job_id : string) (now : Z)
    : AsyncJobQueue * option JobRecord :=
  match _jobs self !! job_id with
  | None => (self, None)
  | Some job =>
      if is_terminal (status job) then (self, Some job)
      else
        let job' :=
          set_updated_at now
            (set_status CANCELED (set_cancel_requested true job)) in
        (set_jobs (<[job_id := job']> (_jobs self)) self, Some job')
  end.

(** ** The fan-out controller *)

(** How a block of the controller ends: normally, by raising an
    [Exception] with the given [str] (the state is the one reached when it
    is raised), or never (it waits for a task that cannot make progress). *)
Inductive flow (A : Type) : Type :=
  | Normal (a : A)
  | Raised (a : A) (msg : string)
  | Blocked (a : A).
Arguments Normal {A} a.
Arguments Raised {A} a msg.
Arguments Blocked {A} a.

(** The library functions of the URL-derivation step.  [None] stands for
    an exception raised by the call. *)
Record Runtime : Type := {
  (** [os.path.relpath(path, start)] *)
  os_path_relpath : pyval -> string -> option string;
  (** [os.path.abspath("static")] *)
  static_abspath : string;
  (** [rel.replace(os.sep, "/")] *)
  replace_sep : string -> string;
  (** [urljoin(base, url)] *)
  urljoin : string -> string -> option string
}.

(** One call of the worker callable, as the controller observes it. *)
Definition call : Type := nat * worker_args.

(** [enumerate(locations)] *)
Fixpoint enumerate_from {A : Type} (i : nat) (l : list A) : list (nat * A) :=
  match l with
  | [] => []
  | x :: rest => (i, x) :: enumerate_from (S i) rest
  end.

Definition enumerate {A : Type} (l : list A) : list (nat * A) :=
  enumerate_from 0 l.

Section Controller.

Variable rt : Runtime.

(** [_run_single_location], for the location at position [idx]. *)
Definition _run_single_location (self : AsyncJobQueue) (idx : nat)
    (loc : pydict) (prx : pyval) : call * outcome :=
  let args :=
    {| lat := dict_get loc "lat";
       lng := dict_get loc "lng";
       storefront_direction :=
         dict_get_default loc "storefront_direction" (VStr "north");
       day := dict_get loc "day";
       time := dict_get loc "time";
       proxy := prx |} in
  ((idx, args), worker_callable self idx args).

(** [process_location]: the body of one location task, once it holds the
    semaphore.  It yields the record as the task leaves it, the value the
    task returns, and the calls of the worker it made. *)
Definition process_location (self : AsyncJobQueue) (job : JobRecord)
    (idx : nat) (loc : pydict) : JobRecord * pyobj * list call :=
  if cancel_requested job then (job, OVal VNone, [])
  else
    match _run_single_location self idx loc (p_proxy (payload job)) with
    | (c, Returns o) => (job, o, [c])
    | (c, Raises e) =>
        let error_msg := "Location analysis failed: " ++ e in
        (set_failure (S (failure job)) job,
         ODict {[ "error" := VStr error_msg ]},
         [c])
    end.

(** The loop that creates the tasks: it stops at the first iteration that
    sees [cancel_requested]. *)
Fixpoint create_tasks (job : JobRecord) (indexed : list (nat * pydict))
    : list (nat * pydict) :=
  match indexed with
  | [] => []
  | (idx, loc) :: rest =>
      if cancel_requested job then []
      else (idx, loc) :: create_tasks job rest
  end.

(** The tasks run to their end.  A task writes [failure] only, and reads
    [cancel_requested] only; the collecting loop writes [completed] and
    its local [results], and awaits the tasks in the order of their
    creation: the tasks are therefore run here before the collecting loop.
    They are run in the order of their creation; any other order of
    completion leaves the same record ([run_tasks_order_irrelevant]). *)
Fixpoint run_tasks (self : AsyncJobQueue) (job : JobRecord)
    (tasks : list (nat * pydict))
    : JobRecord * list (nat * pyobj) * list call :=
  match tasks with
  | [] => (job, [], [])
  | (idx, loc) :: rest =>
      let '(job1, res, cs) := process_location self job idx loc in
      let '(job2, done, cs') := run_tasks self job1 rest in
      (job2, (idx, res) :: done, (cs ++ cs')%list)
  end.

(** The screenshot URL of a result dictionary. *)
Definition screenshot_url_of (p : Payload) (res : pydict) : pyval :=
  let screenshot_path :=
    py_or (dict_get res "screenshot_path")
          (dict_get res "pinned_screenshot_path") in
  if truthy screenshot_path then
    match os_path_relpath rt screenshot_path (static_abspath rt) with
    | Some rel =>
        match urljoin rt (default "/" (p_request_base_url p))
                ("static/" ++ replace_sep rt rel) with
        | Some url => VStr url
        | None => VNone
        end
    | None => VNone
    end
  else VNone.

(** The body of the [try] of one iteration of the collecting loop; an
    exception in it ([.get] on an object that is no dictionary) is logged
    and leaves [results] as it was. *)
Definition store_result (job : JobRecord) (results : list (option pydict))
    (idx : nat) (res : pyobj) : list (option pydict) :=
  if obj_truthy res then
    match res with
    | ODict d =>
        let screenshot_url := screenshot_url_of (payload job) d in
        <[idx := Some (<["screenshot_url" := screenshot_url]> d)]> results
    | OVal _ => results
    end
  else results.

(** The collecting loop. *)
Fixpoint collect (job : JobRecord) (results : list (option pydict))
    (done : list (nat * pyobj)) : JobRecord * list (option pydict) :=
  match done with
  | [] => (job, results)
  | (idx, res) :: rest =>
      if cancel_requested job then (job, results)
      else
        let results' := store_result job results idx res in
        collect (set_completed (S (completed job)) job) results' rest
  end.

(** [r and "error" not in r] *)
Definition is_success (r : option pydict) : bool :=
  match r with
  | Some d => dict_truthy d && negb (dict_has d "error")
  | None => false
  end.

(** [r and "error" in r] *)
Definition is_error (r : option pydict) : bool :=
  match r with
  | Some d => dict_truthy d && dict_has d "error"
  | None => false
  end.

(** [[r for r in results if r and "error" not in r]] *)
Definition successes (results : list (option pydict)) : list pydict :=
  omap (fun r => if is_success r then r else None) results.

(** [[r.get("error", "Unknown error") for r in results
      if r and "error" in r]] *)
Definition error_messages (results : list (option pydict)) : list pyval :=
  omap (fun r =>
          if is_error r
          then (fun d => dict_get_default d "error" (VStr "Unknown error"))
                 <$> r
          else None) results.

(** The block guarded by [if not job.get("cancel_requested")]. *)
Definition finalize (job : JobRecord) (n_locations : nat)
    (results : list (option pydict)) : flow JobRecord :=
  if cancel_requested job then Normal job
  else
    let locs := successes results in
    let job1 := set_result {| count := count (result job);
                              locations := locs |} job in
    let job2 := set_result {| count := length (locations (result job1));
                              locations := locations (result job1) |}
                  job1 in
    if (0 <? n_locations)%nat && (failure job2 =? n_locations)%nat then
      match py_join "; " (take 3 (error_messages results)) with
      | inl joined =>
          Normal
            (set_status FAILED
               (set_error
                  (Some ("All " ++ pretty n_locations
                           ++ " location(s) failed. Errors: " ++ joined))
                  job2))
      | inr e => Raised job2 e
      end
    else Normal (set_status DONE job2).

(** The body of the [try] statement of [_process_job]. *)
Definition try_body (self : AsyncJobQueue) (job : JobRecord)
    (locs : list pydict) : flow JobRecord * list call :=
  if (per_job_concurrency self <? 0)%Z then
    (Raised job "Semaphore initial value must be >= 0", [])
  else
    let tasks := create_tasks job (enumerate locs) in
    match tasks with
    | _ :: _ =>
        if (per_job_concurrency self =? 0)%Z then (Blocked job, [])
        else
          let '(job1, done, cs) := run_tasks self job tasks in
          let '(job2, results) :=
            collect job1 (replicate (length locs) None) done in
          (finalize job2 (length locs) results, cs)
    | [] =>
        let '(job2, results) :=
          collect job (replicate (length locs) None) [] in
        (finalize job2 (length locs) results, [])
    end.

(** [_process_job]: [t_start] and [t_end] are the readings of
    [time.time()] at the claim and in the [finally] clause. *)
Definition _process_job (self : AsyncJobQueue) (job_id : string)
    (t_start t_end : Z) : flow AsyncJobQueue * list call :=
  match _jobs self !! job_id with
  | None => (Normal self, [])
  | Some job =>
      let job0 := set_updated_at t_start (set_status RUNNING job) in
      let locs := take 20 (default [] (p_locations (payload job0))) in
      let put j := set_jobs (<[job_id := j]> (_jobs self)) self in
      match try_body self job0 locs with
      | (Normal j, cs) => (Normal (put (set_updated_at t_end j)), cs)
      | (Raised j e, cs) =>
          let error_msg := "Job processing failed: " ++ e in
          (Normal
             (put (set_updated_at t_end
                     (set_status FAILED (set_error (Some error_msg) j)))),
           cs)
      | (Blocked j, cs) => (Blocked (put j), cs)
      end
  end.

(** One iteration of [_worker_loop]: an empty queue is the timeout of
    [wait_for], after which the loop continues. *)
Definition _worker_loop_step (self : AsyncJobQueue) (t_start t_end : Z)
    : flow AsyncJobQueue * list call :=
  if _running self then
    match _queue self with
    | [] => (Normal self, [])
    | job_id :: rest => _process_job (set_queue rest self) job_id t_start t_end
    end
  else (Normal self, []).

End Controller.

(** ** Vocabulary of the properties *)

(** [job["payload"].get("locations", [])] *)
Definition payload_locations (p : Payload) : list pydict :=
  default [] (p_locations p).

(** The locations of a job as the controller sees them: the first twenty
    of the payload. *)
Definition job_locations (p : Payload) : list pydict :=
  take 20 (payload_locations p).

(** The outcome of the worker call of every location of a list whose first
    element has position [i]. *)
Definition outcomes_from (self : AsyncJobQueue) (prx : pyval) (i : nat)
    (locs : list pydict) : list outcome :=
  map (fun '(idx, loc) => snd (_run_single_location self idx loc prx))
      (enumerate_from i locs).

Definition outcomes (self : AsyncJobQueue) (p : Payload) : list outcome :=
  outcomes_from self (p_proxy p) 0 (job_locations p).

(** The calls of the worker that processing every location of a list
    amounts to, in the order of the list. *)
Definition calls_from (self : AsyncJobQueue) (prx : pyval) (i : nat)
    (locs : list pydict) : list call :=
  map (fun '(idx, loc) => fst (_run_single_location self idx loc prx))
      (enumerate_from i locs).

(** The worker raised. *)
Definition raises (o : outcome) : bool :=
  match o with
  | Raises _ => true
  | Returns _ => false
  end.

(** A well-formed result record: a dictionary with a score that does not
    report an error. *)
Definition well_formed_result (r : pyobj) : bool :=
  match r with
  | ODict d => dict_has d "score" && negb (dict_has d "error")
  | OVal _ => false
  end.

(** The worker succeeded: it returned a well-formed result record. *)
Definition succeeds (o : outcome) : bool :=
  match o with
  | Returns r => well_formed_result r
  | Raises _ => false
  end.

(** The worker returned a false value ([None], [{}], [0], ...). *)
Definition returns_falsy (o : outcome) : bool :=
  match o with
  | Returns r => negb (obj_truthy r)
  | Raises _ => false
  end.

(** The message [process_location] records for a raising call. *)
Definition failure_message (o : outcome) : option string :=
  match o with
  | Raises e => Some ("Location analysis failed: " ++ e)
  | Returns _ => None
  end.

(** The value a location task returns for an outcome of the worker. *)
Definition task_value (o : outcome) : pyobj :=
  match o with
  | Returns r => r
  | Raises e => ODict {[ "error" := VStr ("Location analysis failed: " ++ e) ]}
  end.

(** The slot of [results] that the collecting loop fills for a task value
    ([None] when it leaves the slot as it is). *)
Definition stored (rt : Runtime) (p : Payload) (v : pyobj) : option pydict :=
  if obj_truthy v then
    match v with
    | ODict d => Some (<["screenshot_url" := screenshot_url_of rt p d]> d)
    | OVal _ => None
    end
  else None.

(** The location of an outcome ends up in [result.locations]. *)
Definition recorded (rt : Runtime) (p : Payload) (o : outcome) : bool :=
  is_success (stored rt p (task_value o)).

(** How many elements of a list satisfy a test. *)
Definition count_where {A : Type} (f : A -> bool) (l : list A) : nat :=
  length (List.filter f l).

(** The job record right after [submit]. *)
Definition fresh_job (p : Payload) (t_created t_updated : Z) : JobRecord :=
  {| status := PENDING;
     payload := p;
     result := {| count := 0; locations := [] |};
     error := None;
     completed := 0;
     failure := 0;
     created_at := t_created;
     updated_at := t_updated;
     cancel_requested := false;
     _logged_to_db := false |}.

(** What the [except] and [finally] clauses make of the [try] body. *)
Definition settle (self : AsyncJobQueue) (job_id : string) (t_end : Z)
    (f : flow JobRecord) : flow AsyncJobQueue :=
  let put j := set_jobs (<[job_id := j]> (_jobs self)) self in
  match f with
  | Normal j => Normal (put (set_updated_at t_end j))
  | Raised j e =>
      Normal
        (put (set_updated_at t_end
                (set_status FAILED
                   (set_error (Some ("Job processing failed: " ++ e)) j))))
  | Blocked j => Blocked (put j)
  end.

(** The all-failed summary that the final block writes to [error]. *)
Definition all_failed_summary (os : list outcome) : string :=
  "All " ++ pretty (length os) ++ " location(s) failed. Errors: "
    ++ String.concat "; " (take 3 (omap failure_message os)).

(** ** A concrete deployment, for the examples *)

(** [s] without the prefix [pre], when it has it. *)
Definition strip_prefix (pre s : string) : string :=
  if String.prefix pre s
  then String.substring (String.length pre)
         (String.length s - String.length pre) s
  else s.

(** A POSIX runtime serving the static directory [/app/static]. *)
Definition posix_rt : Runtime :=
  {| os_path_relpath := fun path start =>
       match path with
       | VStr s => Some (strip_prefix (start ++ "/") s)
       | _ => None
       end;
     static_abspath := "/app/static";
     replace_sep := fun s => s;
     urljoin := fun base url => Some (base ++ url) |}.

Definition sample_record : pydict :=
  <["score" := VInt 42]>
    (<["screenshot_path" := VStr "/app/static/images/a.png"]> ∅).

Definition sample_location (a b : Z) : pydict :=
  <["lat" := VInt a]> (<["lng" := VInt b]> ∅).

Definition sample_payload (locs : list pydict) : Payload :=
  {| p_locations := Some locs;
     p_proxy := VNone;
     p_request_base_url := Some "http://host/" |}.

Definition three_locations : list pydict :=
  [sample_location 1 2; sample_location 3 4; sample_location 5 6].

(** Workers: one that always succeeds, one that always raises, one that
    raises for the second location only, and one that returns [None] for
    the second location. *)
Definition worker_ok (idx : nat) (a : worker_args) : outcome :=
  Returns (ODict sample_record).

Definition worker_raise (idx : nat) (a : worker_args) : outcome :=
  Raises "no driver".

Definition worker_second_raises (idx : nat) (a : worker_args) : outcome :=
  if (idx =? 1)%nat then Raises "no driver" else Returns (ODict sample_record).

Definition worker_second_none (idx : nat) (a : worker_args) : outcome :=
  if (idx =? 1)%nat then Returns (OVal VNone) else Returns (ODict sample_record).

(** The record of job [job_id] once [_process_job] has returned. *)
Definition processed (rt : Runtime) (self : AsyncJobQueue) (job_id : string)
    (t_start t_end : Z) : option JobRecord :=
  match fst (_process_job rt self job_id t_start t_end) with
  | Normal self' => get self' job_id
  | Raised _ _ | Blocked _ => None
  end.

(** ** The worker loop *)

(** The state a block ends in, however it ends. *)
Definition flow_value {A : Type} (f : flow A) : A :=
  match f with
  | Normal a | Raised a _ | Blocked a => a
  end.

(** [_worker_loop], for [n] iterations.  [clock i] holds the two readings
    of [time.time()] of iteration [i].  An exception that escapes
    [_process_job] is logged and the loop goes on; a controller that never
    returns keeps the worker for ever. *)
Fixpoint _worker_loop (rt : Runtime) (clock : nat -> Z * Z) (n : nat)
    (self : AsyncJobQueue) : flow AsyncJobQueue * list call :=
  match n with
  | O => (Normal self, [])
  | S n' =>
      match _worker_loop_step rt self (fst (clock O)) (snd (clock O)) with
      | (Normal self', cs) | (Raised self' _, cs) =>
          let '(f, cs') := _worker_loop rt (fun i => clock (S i)) n' self' in
          (f, (cs ++ cs')%list)
      | (Blocked self', cs) => (Blocked self', cs)
      end
  end.

(** What processing may change of a record, and what it may not: the
    payload, the creation time, the cancellation latch and the logging latch
    stay, and the two counters do not decrease. *)
Definition advances (j j' : JobRecord) : Prop :=
  payload j' = payload j
  /\ created_at j' = created_at j
  /\ cancel_requested j' = cancel_requested j
  /\ _logged_to_db j' = _logged_to_db j
  /\ (completed j <= completed j')%nat
  /\ (failure j <= failure j')%nat.

(** ** The request handler that submits jobs (src/main.py) *)

(** [LocationItem] and [MultiTrafficRequest] of src/models.py.  The
    coordinates are floats, which the handler only passes on. *)
Record LocationItem : Type := {
  li_lat : pyval;
  li_lng : pyval;
  li_storefront_direction : option string;
  li_day : option string;
  li_time : option string
}.

Record MultiTrafficRequest : Type := {
  req_locations : list LocationItem;
  req_proxy : option string
}.

(** An [Optional[str]] as a value. *)
Definition opt_str (o : option string) : pyval :=
  match o with
  | Some s => VStr s
  | None => VNone
  end.

(** The dictionary [analyze_batch] builds for one location. *)
Definition location_dict (loc : LocationItem) : pydict :=
  <["lat" := li_lat loc]>
    (<["lng" := li_lng loc]>
       (<["storefront_direction" :=
            py_or (opt_str (li_storefront_direction loc)) (VStr "north")]>
          (<["day" := opt_str (li_day loc)]>
             (<["time" := opt_str (li_time loc)]> ∅)))).

(** The job payload of a request, with the keys the queue reads. *)
Definition job_payload (req : MultiTrafficRequest) (base_url : string)
    : Payload :=
  {| p_locations := Some (map location_dict (req_locations req));
     p_proxy := opt_str (req_proxy req);
     p_request_base_url := Some base_url |}.

(** How a handler answers: with a body, or by raising [HTTPException]. *)
Inductive http (A : Type) : Type :=
  | Respond (body : A)
  | HTTPException (status_code : nat) (detail : string).
Arguments Respond {A} body.
Arguments HTTPException {A} status_code detail.

(** The body [analyze_batch] returns. *)
Record BatchAccepted : Type := {
  ba_job_id : string;
  ba_status : string;
  ba_locations_count : nat
}.

(** A row of the table of jobs. *)
Record JobRow : Type := {
  row_uuid : string;
  row_status : string;
  row_user_id : Z
}.

(** [analyze_batch], after authentication and rate limiting.  [db] is the
    table of jobs; [commit_ok] tells whether adding the row and committing
    succeed (a failure is logged and otherwise ignored). *)
Definition analyze_batch (queue : AsyncJobQueue) (db : list JobRow)
    (req : MultiTrafficRequest) (base_url : string) (user_id : Z)
    (job_id : string) (t_created t_updated : Z) (commit_ok : bool)
    : AsyncJobQueue * list JobRow * http BatchAccepted :=
  match req_locations req with
  | [] => (queue, db, HTTPException 400 "No locations provided")
  | _ :: _ =>
      if (20 <? length (req_locations req))%nat then
        (queue, db, HTTPException 400 "Max 20 locations per request")
      else
        let '(queue', job_uid) :=
          submit queue (job_payload req base_url) job_id t_created t_updated in
        let status := "pending" in
        let db' :=
          if commit_ok
          then (db ++ [{| row_uuid := job_uid; row_status := status;
                          row_user_id := user_id |}])%list
          else db in
        (queue', db',
         Respond {| ba_job_id := job_uid; ba_status := status;
                    ba_locations_count := length (req_locations req) |})
  end.

(** ** Helpers of the worker (src/step2_traffic_analysis.py) *)

(** An RGB colour. *)
Definition rgb : Type := Z * Z * Z.

(** [TRAFFIC_COLORS], in the order of the dictionary. *)
Definition TRAFFIC_COLORS : list (string * (rgb * rgb)) :=
  [ ("dark_red", ((140, 0, 0), (200, 70, 70)));
    ("red", ((220, 50, 40), (255, 110, 90)));
    ("yellow", ((230, 170, 40), (255, 230, 100)));
    ("green", ((0, 180, 120), (60, 255, 190)));
    ("gray", ((160, 170, 180), (200, 210, 220))) ]%Z.

(** [TRAFFIC_SCORES] *)
Definition TRAFFIC_SCORES : gmap string Z :=
  <["dark_red" := 100%Z]>
    (<["red" := 100%Z]>
       (<["yellow" := 70%Z]> (<["green" := 30%Z]> (<["gray" := 0%Z]> ∅)))).

(** [all(min_val <= rgb[i] <= max_val for i, (min_val, max_val) in
    enumerate(zip(min_rgb, max_rgb)))] *)
Definition within (min_rgb max_rgb c : rgb) : bool :=
  let '(r0, g0, b0) := min_rgb in
  let '(r1, g1, b1) := max_rgb in
  let '(r, g, b) := c in
  ((r0 <=? r) && (r <=? r1) && ((g0 <=? g) && (g <=? g1))
   && ((b0 <=? b) && (b <=? b1)))%Z.

(** The loop of [classify_traffic_color] over a table of ranges. *)
Fixpoint classify_in (table : list (string * (rgb * rgb))) (c : rgb)
    : string :=
  match table with
  | [] => "gray"
  | (traffic_type, (min_rgb, max_rgb)) :: rest =>
      if within min_rgb max_rgb c then traffic_type else classify_in rest c
  end.

(** [classify_traffic_color] *)
Definition classify_traffic_color (c : rgb) : string :=
  classify_in TRAFFIC_COLORS c.

(** The loop of [retry_exception] from attempt number [attempt] on, with
    [remaining] attempts left.  [callback i] tells whether call number [i]
    of the callback returns ([true]) or raises.  The result is the value of
    [success], the number of calls made and the number of one-second
    sleeps. *)
Fixpoint retry_attempts (callback : nat -> bool) (attempt remaining : nat)
    : bool * nat * nat :=
  match remaining with
  | O => (false, O, O)
  | S remaining' =>
      if callback attempt then (true, 1%nat, O)
      else
        let '(success, calls, sleeps) :=
          retry_attempts callback (S attempt) remaining' in
        (success, S calls, ((if (attempt <? 2)%nat then 1 else 0) + sleeps)%nat)
  end.

(** [retry_exception]: [range(retry_count)] is empty for a count that is
    not positive. *)
Definition retry_exception (callback : nat -> bool) (retry_count : Z)
    : bool * nat * nat :=
  retry_attempts callback O (Z.to_nat retry_count).

(** The cancellation of the job was not requested (or there is no such
    job in the store). *)
Definition not_canceled (self : AsyncJobQueue) (job_id : string) : bool :=
  match _jobs self !! job_id with
  | Some j => negb (cancel_requested j)
  | None => true
  end.

(** A worker whose record tells the position of its location. *)
Definition worker_scored (idx : nat) (a : worker_args) : outcome :=
  Returns (ODict (<["score" := VInt (Z.of_nat idx)]> ∅)).

(** A clock that ticks twice per iteration. *)
Definition sample_clock (i : nat) : Z * Z :=
  (200 + 2 * Z.of_nat i, 201 + 2 * Z.of_nat i)%Z.

(** A worker that succeeds for the first location, raises for the second
    and returns [None] for every other one. *)
Definition worker_ok_raise_none (idx : nat) (a : worker_args) : outcome :=
  match idx with
  | O => Returns (ODict sample_record)
  | S O => Raises "no driver"
  | _ => Returns (OVal VNone)
  end.

(** ** Payloads that do not follow the documentation of [submit] *)

(** [submit] stores whatever payload it is given.  A value that may stand
    under "locations" and on which [value[:20]] raises [TypeError]: [None],
    a [bool] or an [int]. *)
Inductive unsliceable : Type :=
  | UNone
  | UBool (b : bool)
  | UInt (z : Z).

Definition unsliceable_type_name (v : unsliceable) : string :=
  match v with
  | UNone => "NoneType"
  | UBool _ => "bool"
  | UInt _ => "int"
  end.

(** What the payload of a job holds under "locations": nothing, a list of
    location dictionaries, or a value that cannot be sliced. *)
Inductive locations_entry : Type :=
  | NoEntry
  | ListEntry (l : list pydict)
  | OtherEntry (v : unsliceable).

(** A job dictionary whose payload holds [sj_entry] under "locations".
    The other keys of the job and of its payload are those of [sj_record];
    [p_locations] of the payload of [sj_record] is not read. *)
Record SubmittedJob : Type := {
  sj_entry : locations_entry;
  sj_record : JobRecord
}.

(** The entry of a payload that follows the documentation. *)
Definition entry_of (p : Payload) : locations_entry :=
  match p_locations p with
  | Some l => ListEntry l
  | None => NoEntry
  end.

(** The record with the list of an entry as its [p_locations]. *)
Definition with_entry (e : locations_entry) (j : JobRecord) : JobRecord :=
  {| status := status j;
     payload :=
       {| p_locations :=
            match e with
            | ListEntry l => Some l
            | NoEntry | OtherEntry _ => None
            end;
          p_proxy := p_proxy (payload j);
          p_request_base_url := p_request_base_url (payload j) |};
     result := result j; error := error j; completed := completed j;
     failure := failure j; created_at := created_at j;
     updated_at := updated_at j; cancel_requested := cancel_requested j;
     _logged_to_db := _logged_to_db j |}.

(** [job["payload"].get("locations", [])[:20]]: the list, or the message
    of the [TypeError] that the slice raises. *)
Definition slice_locations (e : locations_entry) : list pydict + string :=
  match e with
  | NoEntry => inl []
  | ListEntry l => inl (take 20 l)
  | OtherEntry v =>
      inr ("'" ++ unsliceable_type_name v ++ "' object is not subscriptable")
  end.

(** [_process_job] from its second statement on, run on the job dictionary
    [job].  The slice of the locations stands before the [try] statement:
    an exception it raises is handled by no clause of [_process_job] and
    escapes to [_worker_loop], which logs it and goes on. *)
Definition _process_job_on (rt : Runtime) (self : AsyncJobQueue)
    (job : SubmittedJob) (t_start t_end : Z)
    : flow SubmittedJob * list call :=
  let job0 := set_updated_at t_start (set_status RUNNING (sj_record job)) in
  let wrap j := {| sj_entry := sj_entry job; sj_record := j |} in
  match slice_locations (sj_entry job) with
  | inr e => (Raised (wrap job0) e, [])
  | inl locs =>
      match try_body rt self (with_entry (sj_entry job) job0) locs with
      | (Normal j, cs) => (Normal (wrap (set_updated_at t_end j)), cs)
      | (Raised j e, cs) =>
          let error_msg := "Job processing failed: " ++ e in
          (Normal
             (wrap (set_updated_at t_end
                      (set_status FAILED (set_error (Some error_msg) j)))),
           cs)
      | (Blocked j, cs) => (Blocked (wrap j), cs)
      end
  end.

(** * Properties *)

(** From here on [++] appends lists and [+:+] appends strings. *)
Open Scope list_scope.

(** ** Records *)

Lemma set_failure_same (j : JobRecord) : set_failure (failure j) j = j.
Proof. by destruct j. Qed.

Lemma set_completed_same (j : JobRecord) : set_completed (completed j) j = j.
Proof. by destruct j. Qed.

Lemma set_jobs_same (self : AsyncJobQueue) : set_jobs (_jobs self) self = self.
Proof. by destruct self. Qed.

Lemma is_terminal_spec (s : JobStatusEnum) :
  is_terminal s = true <-> s = DONE \/ s = FAILED \/ s = CANCELED.
Proof. destruct s; simpl; intuition congruence. Qed.

(** ** Lists *)

Lemma count_where_cons {A : Type} (f : A -> bool) (x : A) (l : list A) :
  count_where f (x :: l) = ((if f x then 1 else 0) + count_where f l)%nat.
Proof. unfold count_where. simpl. by destruct (f x). Qed.

Lemma count_where_le {A : Type} (f : A -> bool) (l : list A) :
  (count_where f l <= length l)%nat.
Proof.
  induction l as [|x l IH]; [done|].
  rewrite count_where_cons. simpl. destruct (f x); lia.
Qed.

Lemma count_where_all {A : Type} (f : A -> bool) (l : list A) :
  count_where f l = length l <-> forallb f l = true.
Proof.
  induction l as [|x l IH]; [done|].
  rewrite count_where_cons. simpl.
  pose proof (count_where_le f l).
  destruct (f x); simpl; [|split; [lia|done]].
  rewrite <- IH. lia.
Qed.

Lemma count_where_none {A : Type} (f : A -> bool) (l : list A) :
  count_where f l = 0%nat <-> forallb (fun x => negb (f x)) l = true.
Proof.
  induction l as [|x l IH]; [done|].
  rewrite count_where_cons. simpl.
  destruct (f x); simpl; [split; [lia|done]|].
  by rewrite <- IH.
Qed.

Lemma length_enumerate_from {A : Type} (i : nat) (l : list A) :
  length (enumerate_from i l) = length l.
Proof. revert i. induction l as [|x l IH]; intros i; simpl; [done|]. by rewrite IH. Qed.

Lemma length_outcomes_from self prx i locs :
  length (outcomes_from self prx i locs) = length locs.
Proof. unfold outcomes_from. by rewrite length_map, length_enumerate_from. Qed.

Lemma length_calls_from self prx i locs :
  length (calls_from self prx i locs) = length locs.
Proof. unfold calls_from. by rewrite length_map, length_enumerate_from. Qed.

Lemma length_job_locations (p : Payload) :
  length (job_locations p) = (length (payload_locations p) `min` 20)%nat.
Proof. unfold job_locations. rewrite length_take. lia. Qed.

(** ** The tasks *)

Lemma create_tasks_no_cancel job (indexed : list (nat * pydict)) :
  cancel_requested job = false -> create_tasks job indexed = indexed.
Proof.
  intros Hc. induction indexed as [|[idx loc] rest IH]; simpl; [done|].
  by rewrite Hc, IH.
Qed.

Lemma create_tasks_cancel job (indexed : list (nat * pydict)) :
  cancel_requested job = true -> create_tasks job indexed = [].
Proof. intros Hc. destruct indexed as [|[idx loc] rest]; simpl; [done|]. by rewrite Hc. Qed.

Lemma run_tasks_no_cancel self locs : forall i job,
  cancel_requested job = false ->
  run_tasks self job (enumerate_from i locs) =
    (set_failure
       (failure job
        + count_where raises (outcomes_from self (p_proxy (payload job)) i locs))
       job,
     enumerate_from i
       (map task_value (outcomes_from self (p_proxy (payload job)) i locs)),
     calls_from self (p_proxy (payload job)) i locs).
Proof.
  induction locs as [|loc locs IH]; intros i job Hc.
  - simpl. unfold count_where. simpl. by rewrite Nat.add_0_r, set_failure_same.
  - cbn [enumerate_from run_tasks].
    unfold process_location. rewrite Hc.
    unfold outcomes_from, calls_from. cbn [enumerate_from map].
    fold (outcomes_from self (p_proxy (payload job)) (S i) locs).
    fold (calls_from self (p_proxy (payload job)) (S i) locs).
    rewrite count_where_cons.
    unfold _run_single_location at 1 2 3. cbn [fst snd].
    destruct (worker_callable self i _) as [o|e]; cbn [raises task_value].
    + rewrite (IH (S i) job Hc). simpl. done.
    + rewrite (IH (S i) (set_failure (S (failure job)) job) Hc). simpl.
      by rewrite Nat.add_succ_r.
Qed.

Lemma count_where_perm {A : Type} (f : A -> bool) (l l' : list A) :
  l ≡ₚ l' -> count_where f l = count_where f l'.
Proof.
  induction 1 as [|x l l' _ IH|x y l|l l' l'' _ IH1 _ IH2];
    rewrite ?count_where_cons; try done.
  - by rewrite IH.
  - lia.
  - by rewrite IH1.
Qed.

Lemma run_tasks_any self (tasks : list (nat * pydict)) : forall job,
  cancel_requested job = false ->
  run_tasks self job tasks =
    (set_failure
       (failure job
        + count_where raises
            (map (fun t => snd (_run_single_location self t.1 t.2
                                  (p_proxy (payload job)))) tasks))
       job,
     map (fun t => (t.1, task_value
                           (snd (_run_single_location self t.1 t.2
                                   (p_proxy (payload job)))))) tasks,
     map (fun t => fst (_run_single_location self t.1 t.2
                          (p_proxy (payload job)))) tasks).
Proof.
  induction tasks as [|[idx loc] tasks IH]; intros job Hc.
  - simpl. unfold count_where. simpl. by rewrite Nat.add_0_r, set_failure_same.
  - cbn [run_tasks map fst snd]. unfold process_location. rewrite Hc.
    rewrite count_where_cons.
    destruct (_run_single_location self idx loc (p_proxy (payload job)))
      as [c [o|e]] eqn:Hrun; cbn [fst snd raises task_value].
    + by rewrite (IH job Hc).
    + rewrite (IH (set_failure (S (failure job)) job) Hc). simpl.
      by rewrite Nat.add_succ_r.
Qed.

(** The tasks of a job finish in an order that the scheduler and the
    worker decide.  That order is immaterial: the record they leave is the
    same, and so are the value of each task and the calls made. *)
Lemma run_tasks_order_irrelevant self job (tasks tasks' : list (nat * pydict)) :
  tasks ≡ₚ tasks' ->
  cancel_requested job = false ->
  (run_tasks self job tasks).1.1 = (run_tasks self job tasks').1.1
  /\ (run_tasks self job tasks).1.2 ≡ₚ (run_tasks self job tasks').1.2
  /\ (run_tasks self job tasks).2 ≡ₚ (run_tasks self job tasks').2.
Proof.
  intros Hp Hc. rewrite !run_tasks_any by done. cbn [fst snd]. split_and!.
  - f_equal. f_equal. apply count_where_perm. by apply Permutation_map.
  - by apply Permutation_map.
  - by apply Permutation_map.
Qed.

(** ** The collecting loop *)

Lemma store_result_stored rt job (results : list (option pydict)) idx res :
  store_result rt job results idx res =
    match stored rt (payload job) res with
    | Some d => <[idx := Some d]> results
    | None => results
    end.
Proof.
  unfold store_result, stored.
  destruct (obj_truthy res); [|done]. by destruct res.
Qed.

Lemma store_result_slot rt job (pre rest : list (option pydict)) res :
  store_result rt job (pre ++ None :: rest) (length pre) res =
    pre ++ stored rt (payload job) res :: rest.
Proof.
  rewrite store_result_stored.
  destruct (stored rt (payload job) res) as [d|]; [|done].
  rewrite insert_app_r_alt by lia.
  by rewrite Nat.sub_diag.
Qed.

Lemma collect_no_cancel rt vals : forall i job (pre : list (option pydict)),
  cancel_requested job = false ->
  length pre = i ->
  collect rt job (pre ++ replicate (length vals) None) (enumerate_from i vals) =
    (set_completed (completed job + length vals) job,
     pre ++ map (stored rt (payload job)) vals).
Proof.
  induction vals as [|v vals IH]; intros i job pre Hc Hi.
  - simpl. by rewrite Nat.add_0_r, set_completed_same.
  - cbn [enumerate_from collect length replicate map]. rewrite Hc.
    subst i. rewrite store_result_slot.
    rewrite (cons_middle _ pre), app_assoc.
    rewrite (IH (S (length pre)) (set_completed (S (completed job)) job)
               (pre ++ [stored rt (payload job) v]) Hc).
    + simpl. rewrite <- app_assoc. simpl. by rewrite Nat.add_succ_r.
    + rewrite length_app. simpl. lia.
Qed.

Lemma collect_cancel rt job (results : list (option pydict)) done :
  cancel_requested job = true -> collect rt job results done = (job, results).
Proof. intros Hc. destruct done as [|[idx res] rest]; simpl; [done|]. by rewrite Hc. Qed.

(** ** The body of the [try] statement *)

(** With a working gate and no cancellation every location is handed to
    the worker once, in order, and the final block sees one slot per
    location. *)
Lemma try_body_no_cancel rt self job locs :
  cancel_requested job = false ->
  (0 < per_job_concurrency self)%Z ->
  let os := outcomes_from self (p_proxy (payload job)) 0 locs in
  try_body rt self job locs =
    (finalize
       (set_completed (completed job + length locs)
          (set_failure (failure job + count_where raises os) job))
       (length locs)
       (map (stored rt (payload job)) (map task_value os)),
     calls_from self (p_proxy (payload job)) 0 locs).
Proof.
  intros Hc HK os. unfold try_body.
  destruct (per_job_concurrency self <? 0)%Z eqn:Hneg; [lia|].
  rewrite (create_tasks_no_cancel _ _ Hc).
  destruct locs as [|loc locs].
  - simpl. unfold count_where. simpl.
    by rewrite !Nat.add_0_r, set_failure_same, set_completed_same.
  - unfold enumerate. cbn [enumerate_from].
    destruct (per_job_concurrency self =? 0)%Z eqn:Hzero; [lia|].
    change ((0%nat, loc) :: enumerate_from 1 locs)
      with (enumerate_from 0 (loc :: locs)).
    rewrite (run_tasks_no_cancel self (loc :: locs) 0 job Hc).
    fold os.
    pose proof (collect_no_cancel rt (map task_value os) 0
                  (set_failure (failure job + count_where raises os) job)
                  [] Hc eq_refl) as Hcol.
    assert (length (map task_value os) = length (loc :: locs)) as Hlen
      by (unfold os; by rewrite length_map, length_outcomes_from).
    rewrite Hlen in Hcol. cbn [app] in Hcol.
    rewrite Hcol. done.
Qed.

(** ** Result slots *)

Lemma dict_truthy_insert (d : pydict) k v : dict_truthy (<[k := v]> d) = true.
Proof.
  unfold dict_truthy. rewrite bool_decide_eq_false_2; [done|].
  apply insert_non_empty.
Qed.

Lemma dict_truthy_has (d : pydict) k : dict_has d k = true -> dict_truthy d = true.
Proof.
  unfold dict_has, dict_truthy. intros H%bool_decide_eq_true_1.
  rewrite bool_decide_eq_false_2; [done|].
  intros ->. rewrite lookup_empty in H. by destruct H.
Qed.

Lemma dict_has_insert_ne (d : pydict) k k' v :
  k <> k' -> dict_has (<[k := v]> d) k' = dict_has d k'.
Proof. intros Hne. unfold dict_has. by rewrite lookup_insert_ne. Qed.

Lemma stored_raises rt p e :
  exists u,
    stored rt p (task_value (Raises e)) =
      Some (<["screenshot_url" := u]>
              {[ "error" := VStr ("Location analysis failed: " +:+ e) ]}).
Proof.
  unfold stored. simpl.
  assert (dict_truthy
            ({[ "error" := VStr ("Location analysis failed: " +:+ e) ]} : pydict)
          = true) as ->.
  { unfold dict_truthy. rewrite bool_decide_eq_false_2; [done|].
    apply map_non_empty_singleton. }
  eauto.
Qed.

Lemma is_error_raises rt p e :
  is_error (stored rt p (task_value (Raises e))) = true.
Proof.
  destruct (stored_raises rt p e) as [u ->]. simpl.
  rewrite dict_truthy_insert, dict_has_insert_ne by done.
  unfold dict_has. by rewrite lookup_singleton_eq.
Qed.

Lemma recorded_raises rt p o : raises o = true -> recorded rt p o = false.
Proof.
  destruct o as [r|e]; [done|]. intros _. unfold recorded.
  destruct (stored_raises rt p e) as [u ->]. simpl.
  rewrite dict_truthy_insert, dict_has_insert_ne by done.
  unfold dict_has. by rewrite lookup_singleton_eq.
Qed.

Lemma recorded_falsy rt p o : returns_falsy o = true -> recorded rt p o = false.
Proof.
  destruct o as [r|e]; [|done]. simpl. intros H%negb_true_iff.
  unfold recorded, stored. simpl. by rewrite H.
Qed.

Lemma recorded_succeeds rt p o : succeeds o = true -> recorded rt p o = true.
Proof.
  destruct o as [[d|v]|e]; [|done..]. simpl.
  intros [Hs He]%andb_true_iff.
  unfold recorded, stored. simpl.
  rewrite (dict_truthy_has d "score" Hs). simpl.
  by rewrite dict_truthy_insert, dict_has_insert_ne.
Qed.

Lemma successes_cons r (rs : list (option pydict)) :
  successes (r :: rs) =
    match r with
    | Some d => if is_success r then d :: successes rs else successes rs
    | None => successes rs
    end.
Proof. unfold successes. simpl. destruct r as [d|]; [|done]. by destruct (is_success _). Qed.

Lemma length_successes rt p (os : list outcome) :
  length (successes (map (stored rt p) (map task_value os))) =
    count_where (recorded rt p) os.
Proof.
  induction os as [|o os IH]; [done|].
  cbn [map]. rewrite successes_cons, count_where_cons. unfold recorded at 1.
  destruct (stored rt p (task_value o)) as [d|] eqn:Hs; [|by rewrite IH].
  destruct (is_success (Some d)); simpl; by rewrite IH.
Qed.

(** Every recorded location is a non-empty dictionary without an
    ["error"] entry. *)
Lemma successes_are_records (rs : list (option pydict)) :
  Forall (fun d => dict_truthy d = true /\ dict_has d "error" = false)
         (successes rs).
Proof.
  induction rs as [|r rs IH]; [constructor|].
  rewrite successes_cons. destruct r as [d|]; [|done].
  destruct (is_success (Some d)) eqn:Hs; [|done].
  constructor; [|done]. simpl in Hs.
  apply andb_true_iff in Hs as [? ?%negb_true_iff]. done.
Qed.

(** ** Counting outcomes *)

Lemma count_where_exists {A : Type} (f : A -> bool) (l : list A) :
  existsb f l = true <-> (0 < count_where f l)%nat.
Proof.
  induction l as [|x l IH]; simpl.
  - unfold count_where. simpl. split; [done|lia].
  - rewrite count_where_cons. destruct (f x); simpl; [split; [lia|done]|done].
Qed.

Lemma count_outcomes_le rt p (os : list outcome) :
  (count_where (recorded rt p) os + count_where raises os
   + count_where returns_falsy os <= length os)%nat.
Proof.
  induction os as [|o os IH]; [done|].
  rewrite !count_where_cons. simpl.
  destruct (raises o) eqn:Hr.
  { rewrite (recorded_raises rt p o Hr). destruct o; [done|]. simpl. lia. }
  destruct (returns_falsy o) eqn:Hf.
  { rewrite (recorded_falsy rt p o Hf). lia. }
  destruct (recorded rt p o); lia.
Qed.

Lemma count_outcomes_exact rt p (os : list outcome) :
  forallb (fun o => succeeds o || raises o) os = true ->
  (count_where (recorded rt p) os + count_where raises os = length os)%nat.
Proof.
  induction os as [|o os IH]; [done|].
  simpl. intros [Ho Hos]%andb_true_iff.
  rewrite !count_where_cons. simpl. specialize (IH Hos).
  destruct (succeeds o) eqn:Hs.
  - rewrite (recorded_succeeds rt p o Hs). destruct o; [simpl; lia|done].
  - simpl in Ho. rewrite Ho, (recorded_raises rt p o Ho). lia.
Qed.

Lemma succeeds_not_raises o : succeeds o = true -> raises o = false.
Proof. by destruct o. Qed.

Lemma falsy_not_raises o : returns_falsy o = true -> raises o = false.
Proof. by destruct o. Qed.

Lemma count_raises_lt (f : outcome -> bool) (os : list outcome) :
  (forall o, f o = true -> raises o = false) ->
  existsb f os = true ->
  (count_where raises os < length os)%nat.
Proof.
  intros Hf. induction os as [|o os IH]; [done|].
  simpl. rewrite count_where_cons. pose proof (count_where_le raises os) as Hle.
  destruct (f o) eqn:Ho; simpl.
  - intros _. rewrite (Hf o Ho). lia.
  - intros Hex. specialize (IH Hex). destruct (raises o); lia.
Qed.

(** ** The final block *)

Lemma join_items_strings (l : list string) : forall i,
  join_items i (map VStr l) = inl l.
Proof. induction l as [|s l IH]; intros i; simpl; [done|]. by rewrite IH. Qed.

Lemma py_join_strings sep (l : list string) :
  py_join sep (map VStr l) = inl (String.concat sep l).
Proof. unfold py_join. by rewrite join_items_strings. Qed.

Lemma error_messages_cons r (rs : list (option pydict)) :
  error_messages (r :: rs) =
    match r with
    | Some d =>
        if is_error r
        then dict_get_default d "error" (VStr "Unknown error")
               :: error_messages rs
        else error_messages rs
    | None => error_messages rs
    end.
Proof.
  unfold error_messages. simpl. destruct r as [d|]; [|done].
  by destruct (is_error (Some d)).
Qed.

Lemma error_messages_all_raise rt p (os : list outcome) :
  forallb raises os = true ->
  error_messages (map (stored rt p) (map task_value os)) =
    map VStr (omap failure_message os).
Proof.
  induction os as [|o os IH]; [done|].
  cbn [forallb map]. intros [Ho Hos]%andb_true_iff.
  destruct o as [r|e]; [done|].
  cbn [omap list_omap failure_message map].
  rewrite error_messages_cons, (IH Hos).
  pose proof (is_error_raises rt p e) as He.
  destruct (stored_raises rt p e) as [u Hu].
  rewrite He, Hu.
  unfold dict_get_default.
  by rewrite lookup_insert_ne, lookup_singleton_eq.
Qed.

Lemma finalize_done job n (rs : list (option pydict)) :
  cancel_requested job = false ->
  n = 0%nat \/ failure job <> n ->
  finalize job n rs =
    Normal (set_status DONE
              (set_result {| count := length (successes rs);
                             locations := successes rs |} job)).
Proof.
  intros Hc Hn. unfold finalize. rewrite Hc. cbn [failure set_result].
  destruct ((0 <? n)%nat && (failure job =? n)%nat) eqn:Hb; [|done].
  apply andb_true_iff in Hb as [H0%Nat.ltb_lt Hf%Nat.eqb_eq]. lia.
Qed.

Lemma finalize_failed job n (rs : list (option pydict)) joined :
  cancel_requested job = false ->
  (0 < n)%nat ->
  failure job = n ->
  py_join "; " (take 3 (error_messages rs)) = inl joined ->
  finalize job n rs =
    Normal (set_status FAILED
              (set_error
                 (Some ("All " +:+ pretty n
                          +:+ " location(s) failed. Errors: " +:+ joined))
                 (set_result {| count := length (successes rs);
                                locations := successes rs |} job))).
Proof.
  intros Hc H0 Hf Hj. unfold finalize. rewrite Hc. cbn [failure set_result].
  rewrite Hj.
  destruct ((0 <? n)%nat && (failure job =? n)%nat) eqn:Hb; [done|].
  apply andb_false_iff in Hb as [Hb%Nat.ltb_ge|Hb%Nat.eqb_neq]; lia.
Qed.

(** Whatever the final block does, it ends, and a record it hands back
    without an exception is [DONE] or [FAILED]. *)
Lemma finalize_settles job n (rs : list (option pydict)) :
  cancel_requested job = false ->
  (exists j, finalize job n rs = Normal j /\ (status j = DONE \/ status j = FAILED))
  \/ (exists j e, finalize job n rs = Raised j e).
Proof.
  intros Hc. unfold finalize. rewrite Hc.
  destruct (_ && _).
  - destruct (py_join _ _) as [s|e]; [left|right]; eauto.
  - left. eauto.
Qed.

(** ** [_process_job] *)

Lemma process_job_settle rt self job_id job t0 t1 :
  _jobs self !! job_id = Some job ->
  _process_job rt self job_id t0 t1 =
    (settle self job_id t1
       (fst (try_body rt self (set_updated_at t0 (set_status RUNNING job))
               (job_locations (payload job)))),
     snd (try_body rt self (set_updated_at t0 (set_status RUNNING job))
            (job_locations (payload job)))).
Proof.
  intros Hj. unfold _process_job. rewrite Hj.
  change (take 20 (default [] (p_locations
            (payload (set_updated_at t0 (set_status RUNNING job))))))
    with (job_locations (payload job)).
  by destruct (try_body _ _ _ _) as [[j|j e|j] cs].
Qed.

Lemma process_job_no_cancel rt self job_id job t0 t1 :
  _jobs self !! job_id = Some job ->
  cancel_requested job = false ->
  (0 < per_job_concurrency self)%Z ->
  _process_job rt self job_id t0 t1 =
    (settle self job_id t1
       (finalize
          (set_completed (completed job + length (job_locations (payload job)))
             (set_failure
                (failure job + count_where raises (outcomes self (payload job)))
                (set_updated_at t0 (set_status RUNNING job))))
          (length (job_locations (payload job)))
          (map (stored rt (payload job))
               (map task_value (outcomes self (payload job))))),
     calls_from self (p_proxy (payload job)) 0 (job_locations (payload job))).
Proof.
  intros Hj Hc HK. rewrite (process_job_settle _ _ _ _ _ _ Hj).
  by rewrite try_body_no_cancel.
Qed.

(** ** A freshly submitted job *)

Lemma submit_lookup self p job_id tc tu :
  _jobs (fst (submit self p job_id tc tu)) !! job_id = Some (fresh_job p tc tu).
Proof. simpl. by rewrite lookup_insert_eq. Qed.

Lemma submit_outcomes self p p' job_id tc tu :
  outcomes (fst (submit self p' job_id tc tu)) p = outcomes self p.
Proof. reflexivity. Qed.

Lemma get_put self job_id j :
  get (set_jobs (<[job_id := j]> (_jobs self)) self) job_id = Some j.
Proof. unfold get. simpl. by rewrite lookup_insert_eq. Qed.

(** The record of a job that is submitted and then processed, with a
    working gate and no cancellation. *)
Lemma processed_fresh rt self p job_id tc tu t0 t1 :
  (0 < per_job_concurrency self)%Z ->
  exists j,
    processed rt (fst (submit self p job_id tc tu)) job_id t0 t1 = Some j
    /\ completed j = length (job_locations p)
    /\ failure j = count_where raises (outcomes self p)
    /\ locations (result j) =
         successes (map (stored rt p) (map task_value (outcomes self p)))
    /\ count (result j) = count_where (recorded rt p) (outcomes self p)
    /\ cancel_requested j = false
    /\ updated_at j = t1
    /\ (if (0 <? length (job_locations p))%nat
           && forallb raises (outcomes self p)
        then status j = FAILED
             /\ error j = Some (all_failed_summary (outcomes self p))
        else status j = DONE /\ error j = None).
Proof.
  intros HK. unfold processed.
  rewrite (process_job_no_cancel rt _ job_id (fresh_job p tc tu) t0 t1
             (submit_lookup self p job_id tc tu) eq_refl HK).
  cbn [fst payload fresh_job completed failure]. rewrite submit_outcomes.
  set (os := outcomes self p).
  set (n := length (job_locations p)).
  assert (length os = n) as Hlen
    by (unfold os, outcomes; apply length_outcomes_from).
  set (job1 := set_completed _ _).
  assert (cancel_requested job1 = false) as Hc by done.
  destruct ((0 <? n)%nat && forallb raises os) eqn:Hall.
  - apply andb_true_iff in Hall as [Hn%Nat.ltb_lt Hr].
    assert (failure job1 = n) as Hf.
    { simpl. rewrite <- Hlen. by apply count_where_all. }
    assert (py_join "; "
              (take 3 (error_messages
                         (map (stored rt p) (map task_value os))))
            = inl (String.concat "; " (take 3 (omap failure_message os))))
      as Hj.
    { rewrite (error_messages_all_raise rt p os Hr).
      rewrite <- fmap_take. apply py_join_strings. }
    rewrite (finalize_failed job1 n _ _ Hc Hn Hf Hj). cbn [settle].
    rewrite get_put. eexists. split; [done|].
    repeat split; try done.
    + simpl. apply length_successes.
    + simpl. unfold all_failed_summary. by rewrite Hlen.
  - assert (n = 0%nat \/ failure job1 <> n) as Hd.
    { apply andb_false_iff in Hall as [Hn%Nat.ltb_ge|Hr]; [left; lia|].
      right. simpl. rewrite <- Hlen. intros Heq%count_where_all. congruence. }
    rewrite (finalize_done job1 n _ Hc Hd). cbn [settle].
    rewrite get_put. eexists. split; [done|].
    repeat split; try done.
    simpl. apply length_successes.
Qed.

(** ** Outcomes of a processed job *)

Lemma job_locations_short (p : Payload) :
  (length (payload_locations p) <= 20)%nat ->
  job_locations p = payload_locations p.
Proof. intros H. unfold job_locations. by apply take_ge. Qed.

Lemma length_outcomes self p :
  length (outcomes self p) = length (job_locations p).
Proof. apply length_outcomes_from. Qed.

Lemma all_succeed_no_raise (os : list outcome) :
  forallb succeeds os = true -> count_where raises os = 0%nat.
Proof.
  intros H. apply count_where_none.
  induction os as [|o os IH]; [done|].
  simpl in *. apply andb_true_iff in H as [Ho Hos].
  by rewrite (succeeds_not_raises o Ho), (IH Hos).
Qed.

Lemma all_succeed_either (os : list outcome) :
  forallb succeeds os = true ->
  forallb (fun o => succeeds o || raises o) os = true.
Proof.
  induction os as [|o os IH]; [done|].
  simpl. intros [Ho Hos]%andb_true_iff. by rewrite Ho, (IH Hos).
Qed.

Lemma all_raise_none_recorded rt p (os : list outcome) :
  forallb raises os = true -> count_where (recorded rt p) os = 0%nat.
Proof.
  intros H. apply count_where_none.
  induction os as [|o os IH]; [done|].
  simpl in *. apply andb_true_iff in H as [Ho Hos].
  by rewrite (recorded_raises rt p o Ho), (IH Hos).
Qed.

Lemma all_failed_summary_nonempty (os : list outcome) :
  all_failed_summary os <> "".
Proof. unfold all_failed_summary. simpl. discriminate. Qed.

(** C4: a job of N locations, 0 <= N <= 20, for each of which the worker
    returns a well-formed result record, submitted and then processed
    without a cancellation, ends with status DONE, completed = N,
    result.count = N and failure = 0. *)
Theorem all_succeed_done rt self p job_id tc tu t0 t1 :
  (length (payload_locations p) <= 20)%nat ->
  (0 < per_job_concurrency self)%Z ->
  forallb succeeds (outcomes self p) = true ->
  exists j,
    processed rt (fst (submit self p job_id tc tu)) job_id t0 t1 = Some j
    /\ status j = DONE
    /\ completed j = length (payload_locations p)
    /\ count (result j) = length (payload_locations p)
    /\ failure j = 0%nat.
Proof.
  intros HN HK Hok.
  destruct (processed_fresh rt self p job_id tc tu t0 t1 HK)
    as (j & Hj & Hcompl & Hfail & _ & Hcount & _ & _ & Hst).
  rewrite (all_succeed_no_raise _ Hok) in Hfail.
  pose proof (count_outcomes_exact rt p _ (all_succeed_either _ Hok)) as Hex.
  rewrite (all_succeed_no_raise _ Hok), Nat.add_0_r, length_outcomes in Hex.
  rewrite (job_locations_short p HN) in *.
  exists j. repeat split; try congruence.
  destruct ((0 <? length (payload_locations p))%nat
            && forallb raises (outcomes self p)) eqn:Hall; [|apply Hst].
  apply andb_true_iff in Hall as [Hn%Nat.ltb_lt Hr].
  apply count_where_all in Hr.
  rewrite (all_succeed_no_raise _ Hok), length_outcomes in Hr.
  rewrite (job_locations_short p HN) in Hr. lia.
Qed.

Lemma all_succeed_done_witness :
  exists j,
    processed posix_rt
      (fst (submit (init worker_ok 2 20) (sample_payload three_locations)
              "3f9a1c0b2d4e5f60" 100 100))
      "3f9a1c0b2d4e5f60" 101 102 = Some j
    /\ status j = DONE
    /\ completed j = length (payload_locations (sample_payload three_locations))
    /\ count (result j)
       = length (payload_locations (sample_payload three_locations))
    /\ failure j = 0%nat.
Proof.
  apply (all_succeed_done posix_rt (init worker_ok 2 20)
           (sample_payload three_locations)).
  - simpl. lia.
  - simpl. lia.
  - vm_compute. reflexivity.
Defined.

(** C3: a job of N >= 1 locations for each of which the worker raises,
    submitted and then processed without a cancellation, ends with status
    FAILED, failure = N, result.count = 0 and a non-empty error that sums up
    the first three failure messages at most.  N is the number of locations
    of the job as the controller takes them from the payload (its first
    twenty). *)
Theorem all_fail_failed rt self p job_id tc tu t0 t1 :
  (1 <= length (job_locations p))%nat ->
  (0 < per_job_concurrency self)%Z ->
  forallb raises (outcomes self p) = true ->
  exists j,
    processed rt (fst (submit self p job_id tc tu)) job_id t0 t1 = Some j
    /\ status j = FAILED
    /\ failure j = length (job_locations p)
    /\ count (result j) = 0%nat
    /\ error j = Some (all_failed_summary (outcomes self p))
    /\ all_failed_summary (outcomes self p) <> ""
    /\ (length (job_locations p) = length (payload_locations p) `min` 20)%nat.
Proof.
  intros HN HK Hr.
  destruct (processed_fresh rt self p job_id tc tu t0 t1 HK)
    as (j & Hj & _ & Hfail & _ & Hcount & _ & _ & Hst).
  rewrite Hr, andb_true_r in Hst.
  destruct (0 <? length (job_locations p))%nat eqn:Hn;
    [|apply Nat.ltb_ge in Hn; lia].
  destruct Hst as [Hs He].
  rewrite (proj2 (count_where_all raises _) Hr), (length_outcomes self p)
    in Hfail.
  rewrite (all_raise_none_recorded rt p _ Hr) in Hcount.
  exists j. split_and!; [done..| |].
  - apply all_failed_summary_nonempty.
  - apply length_job_locations.
Qed.

Lemma all_fail_failed_witness :
  exists j,
    processed posix_rt
      (fst (submit (init worker_raise 2 20) (sample_payload three_locations)
              "3f9a1c0b2d4e5f60" 100 100))
      "3f9a1c0b2d4e5f60" 101 102 = Some j
    /\ status j = FAILED
    /\ failure j = length (job_locations (sample_payload three_locations))
    /\ count (result j) = 0%nat
    /\ error j
       = Some (all_failed_summary
                 (outcomes (init worker_raise 2 20)
                    (sample_payload three_locations)))
    /\ all_failed_summary
         (outcomes (init worker_raise 2 20) (sample_payload three_locations))
       <> ""
    /\ (length (job_locations (sample_payload three_locations))
        = length (payload_locations (sample_payload three_locations)) `min` 20)%nat.
Proof.
  apply (all_fail_failed posix_rt (init worker_raise 2 20)
           (sample_payload three_locations)).
  - simpl. lia.
  - simpl. lia.
  - vm_compute. reflexivity.
Defined.

(** C5, as amended: a job of N locations, for at least one of which the
    worker returns a well-formed result record and for at least one of which
    it raises, submitted and then processed without a cancellation, ends
    with status DONE and result.count <= N - failure; result.count =
    N - failure when, for every location, the worker either returns a
    well-formed result record or raises.  N is the number of locations of
    the job as the controller takes them from the payload (its first
    twenty). *)
Theorem partial_success_done rt self p job_id tc tu t0 t1 :
  (0 < per_job_concurrency self)%Z ->
  existsb succeeds (outcomes self p) = true ->
  existsb raises (outcomes self p) = true ->
  exists j,
    processed rt (fst (submit self p job_id tc tu)) job_id t0 t1 = Some j
    /\ status j = DONE
    /\ (count (result j) <= length (job_locations p) - failure j)%nat
    /\ (forallb (fun o => succeeds o || raises o) (outcomes self p) = true ->
        count (result j) = (length (job_locations p) - failure j)%nat)
    /\ (0 < failure j < length (job_locations p))%nat
    /\ (length (job_locations p) = length (payload_locations p) `min` 20)%nat.
Proof.
  intros HK Hok Hbad.
  destruct (processed_fresh rt self p job_id tc tu t0 t1 HK)
    as (j & Hj & _ & Hfail & _ & Hcount & _ & _ & Hst).
  pose proof (count_outcomes_le rt p (outcomes self p)) as Hle.
  pose proof (count_raises_lt succeeds _ succeeds_not_raises Hok) as Hlt.
  pose proof (proj1 (count_where_exists raises _) Hbad) as Hpos.
  rewrite (length_outcomes self p) in Hle, Hlt.
  exists j. split_and!; [done| |lia| |lia|lia|apply length_job_locations].
  - destruct ((0 <? length (job_locations p))%nat
              && forallb raises (outcomes self p)) eqn:Hf; [|apply Hst].
    apply andb_true_iff in Hf as [_ Hr].
    apply count_where_all in Hr. rewrite (length_outcomes self p) in Hr. lia.
  - intros Hall.
    pose proof (count_outcomes_exact rt p _ Hall) as Hex.
    rewrite (length_outcomes self p) in Hex. lia.
Qed.

Lemma partial_success_done_witness :
  exists j,
    processed posix_rt
      (fst (submit (init worker_second_raises 2 20)
              (sample_payload three_locations) "3f9a1c0b2d4e5f60" 100 100))
      "3f9a1c0b2d4e5f60" 101 102 = Some j
    /\ status j = DONE
    /\ (count (result j)
        <= length (job_locations (sample_payload three_locations))
           - failure j)%nat
    /\ (forallb (fun o => succeeds o || raises o)
          (outcomes (init worker_second_raises 2 20)
             (sample_payload three_locations)) = true ->
        count (result j)
        = (length (job_locations (sample_payload three_locations))
           - failure j)%nat)
    /\ (0 < failure j
        < length (job_locations (sample_payload three_locations)))%nat
    /\ (length (job_locations (sample_payload three_locations))
        = length (payload_locations (sample_payload three_locations)) `min` 20)%nat.
Proof.
  apply (partial_success_done posix_rt (init worker_second_raises 2 20)
           (sample_payload three_locations)).
  - simpl. lia.
  - vm_compute. reflexivity.
  - vm_compute. reflexivity.
Defined.

(** C5, as the claim states it, fails: of three locations the worker
    succeeds for the first, raises for the second and returns [None] for the
    third; the job ends DONE with result.count = 1, while N - failure = 2. *)
Lemma partial_success_counterexample :
  existsb succeeds
    (outcomes (init worker_ok_raise_none 2 20)
       (sample_payload three_locations)) = true
  /\ existsb raises
       (outcomes (init worker_ok_raise_none 2 20)
          (sample_payload three_locations)) = true
  /\ exists j,
       processed posix_rt
         (fst (submit (init worker_ok_raise_none 2 20)
                 (sample_payload three_locations)
                 "3f9a1c0b2d4e5f60" 100 100))
         "3f9a1c0b2d4e5f60" 101 102 = Some j
       /\ status j = DONE
       /\ count (result j) = 1%nat
       /\ failure j = 1%nat
       /\ length (job_locations (sample_payload three_locations)) = 3%nat
       /\ count (result j)
          <> (length (job_locations (sample_payload three_locations))
              - failure j)%nat.
Proof.
  split; [by vm_compute|]. split; [by vm_compute|].
  eexists. split; [vm_compute; reflexivity|].
  split_and!; by vm_compute.
Qed.

(** C10: when the worker returns a false value for some location without
    raising, that location is counted in completed, is not part of
    result.locations and is not counted in failure: result.count is
    strictly less than the number of locations minus failure, and the job
    still ends DONE. *)
Theorem falsy_result_uncounted rt self p job_id tc tu t0 t1 :
  (0 < per_job_concurrency self)%Z ->
  existsb returns_falsy (outcomes self p) = true ->
  exists j,
    processed rt (fst (submit self p job_id tc tu)) job_id t0 t1 = Some j
    /\ status j = DONE
    /\ completed j = length (job_locations p)
    /\ failure j = count_where raises (outcomes self p)
    /\ (count (result j) + failure j
        + count_where returns_falsy (outcomes self p)
        <= length (job_locations p))%nat
    /\ (count (result j) < length (job_locations p) - failure j)%nat
    /\ length (locations (result j)) = count (result j)
    /\ Forall (fun d => dict_truthy d = true) (locations (result j))
    /\ (length (job_locations p) = length (payload_locations p) `min` 20)%nat.
Proof.
  intros HK Hfalsy.
  destruct (processed_fresh rt self p job_id tc tu t0 t1 HK)
    as (j & Hj & Hcompl & Hfail & Hlocs & Hcount & _ & _ & Hst).
  pose proof (count_outcomes_le rt p (outcomes self p)) as Hle.
  pose proof (count_raises_lt returns_falsy _ falsy_not_raises Hfalsy) as Hlt.
  pose proof (proj1 (count_where_exists returns_falsy _) Hfalsy) as Hpos.
  rewrite (length_outcomes self p) in Hle, Hlt.
  exists j.
  split_and!; [done| |done|done|lia|lia| | |apply length_job_locations].
  - destruct ((0 <? length (job_locations p))%nat
              && forallb raises (outcomes self p)) eqn:Hf; [|apply Hst].
    apply andb_true_iff in Hf as [_ Hr].
    apply count_where_all in Hr. rewrite (length_outcomes self p) in Hr. lia.
  - rewrite Hcount, Hlocs. apply length_successes.
  - rewrite Hlocs.
    eapply Forall_impl; [apply successes_are_records|].
    by intros d [? _].
Qed.

Lemma falsy_result_uncounted_witness :
  exists j,
    processed posix_rt
      (fst (submit (init worker_second_none 2 20)
              (sample_payload three_locations) "3f9a1c0b2d4e5f60" 100 100))
      "3f9a1c0b2d4e5f60" 101 102 = Some j
    /\ status j = DONE
    /\ completed j = length (job_locations (sample_payload three_locations))
    /\ failure j
       = count_where raises
           (outcomes (init worker_second_none 2 20)
              (sample_payload three_locations))
    /\ (count (result j) + failure j
        + count_where returns_falsy
            (outcomes (init worker_second_none 2 20)
               (sample_payload three_locations))
        <= length (job_locations (sample_payload three_locations)))%nat
    /\ (count (result j)
        < length (job_locations (sample_payload three_locations))
          - failure j)%nat
    /\ length (locations (result j)) = count (result j)
    /\ Forall (fun d => dict_truthy d = true) (locations (result j))
    /\ (length (job_locations (sample_payload three_locations))
        = length (payload_locations (sample_payload three_locations)) `min` 20)%nat.
Proof.
  apply (falsy_result_uncounted posix_rt (init worker_second_none 2 20)
           (sample_payload three_locations)).
  - simpl. lia.
  - vm_compute. reflexivity.
Defined.

(** ** Degenerate gates and empty jobs *)

Lemma try_body_empty rt self job :
  (0 <= per_job_concurrency self)%Z ->
  try_body rt self job [] = (finalize job 0 [], []).
Proof.
  intros HK. unfold try_body.
  destruct (per_job_concurrency self <? 0)%Z eqn:Hneg; [lia|]. done.
Qed.

Lemma try_body_negative rt self job locs :
  (per_job_concurrency self < 0)%Z ->
  try_body rt self job locs =
    (Raised job "Semaphore initial value must be >= 0", []).
Proof.
  intros HK. unfold try_body.
  destruct (per_job_concurrency self <? 0)%Z eqn:Hneg; [done|lia].
Qed.

(** A gate of capacity zero admits no task: the controller waits for its
    first task for ever, and the job stays RUNNING. *)
Lemma process_job_blocked rt self job_id job t0 t1 :
  _jobs self !! job_id = Some job ->
  cancel_requested job = false ->
  per_job_concurrency self = 0%Z ->
  job_locations (payload job) <> [] ->
  exists self',
    _process_job rt self job_id t0 t1 = (Blocked self', [])
    /\ status <$> get self' job_id = Some RUNNING.
Proof.
  intros Hj Hc HK Hlocs. rewrite (process_job_settle _ _ _ _ _ _ Hj).
  unfold try_body. rewrite HK. simpl (0 <? 0)%Z. cbv iota.
  rewrite create_tasks_no_cancel by done.
  destruct (job_locations (payload job)) as [|loc locs]; [done|].
  simpl. eexists. split; [done|]. by rewrite get_put.
Qed.

(** C6: a job whose payload holds no location, submitted and then
    processed without a cancellation, ends with status DONE (not FAILED),
    completed = 0, failure = 0 and result.count = 0. *)
Theorem zero_locations_done rt self p job_id tc tu t0 t1 :
  payload_locations p = [] ->
  (0 <= per_job_concurrency self)%Z ->
  exists j,
    processed rt (fst (submit self p job_id tc tu)) job_id t0 t1 = Some j
    /\ status j = DONE
    /\ status j <> FAILED
    /\ completed j = 0%nat
    /\ failure j = 0%nat
    /\ count (result j) = 0%nat
    /\ locations (result j) = [].
Proof.
  intros Hp HK. unfold processed.
  rewrite (process_job_settle rt _ job_id (fresh_job p tc tu) t0 t1
             (submit_lookup self p job_id tc tu)).
  cbn [payload fresh_job]. unfold job_locations. rewrite Hp. cbn [take].
  rewrite try_body_empty by done. cbn [fst].
  rewrite finalize_done by (done || by left).
  cbn [settle]. rewrite get_put. eexists. by split_and!.
Qed.

Lemma zero_locations_done_witness :
  exists j,
    processed posix_rt
      (fst (submit (init worker_raise 2 20) (sample_payload [])
              "3f9a1c0b2d4e5f60" 100 100))
      "3f9a1c0b2d4e5f60" 101 102 = Some j
    /\ status j = DONE
    /\ status j <> FAILED
    /\ completed j = 0%nat
    /\ failure j = 0%nat
    /\ count (result j) = 0%nat
    /\ locations (result j) = [].
Proof.
  apply (zero_locations_done posix_rt (init worker_raise 2 20)
           (sample_payload [])).
  - reflexivity.
  - simpl. lia.
Defined.

(** ** The calls of the worker *)

Lemma calls_from_lookup self prx (locs : list pydict) : forall i k,
  calls_from self prx i locs !! k =
    (fun loc => fst (_run_single_location self (i + k) loc prx))
      <$> locs !! k.
Proof.
  induction locs as [|loc locs IH]; intros i k; [done|].
  unfold calls_from in *. cbn [enumerate_from map].
  destruct k as [|k]; simpl.
  - by rewrite Nat.add_0_r.
  - rewrite IH. by rewrite Nat.add_succ_r.
Qed.

(** The run of a freshly submitted job, with the calls it makes. *)
Lemma fresh_job_run rt self p job_id tc tu t0 t1 :
  (0 < per_job_concurrency self)%Z ->
  exists j calls,
    _process_job rt (fst (submit self p job_id tc tu)) job_id t0 t1
      = (Normal (set_jobs (<[job_id := j]>
                             (_jobs (fst (submit self p job_id tc tu))))
                   (fst (submit self p job_id tc tu))),
         calls)
    /\ (forall k,
          calls !! k =
            if (k <? 20)%nat
            then (fun loc => fst (_run_single_location self k loc (p_proxy p)))
                   <$> payload_locations p !! k
            else None)
    /\ length calls = (length (payload_locations p) `min` 20)%nat
    /\ completed j = (length (payload_locations p) `min` 20)%nat
    /\ (status j = DONE \/ status j = FAILED).
Proof.
  intros HK.
  pose proof (process_job_no_cancel rt _ job_id (fresh_job p tc tu) t0 t1
                (submit_lookup self p job_id tc tu) eq_refl HK) as Hrun.
  cbn [payload fresh_job completed failure] in Hrun.
  set (job1 := set_completed _ _) in Hrun.
  destruct (finalize_settles job1 (length (job_locations p))
              (map (stored rt p)
                 (map task_value
                    (outcomes (fst (submit self p job_id tc tu)) p)))
              eq_refl)
    as [(j & Hfin & Hst)|(j & e & Hfin)]; rewrite Hfin in Hrun;
    cbn [settle] in Hrun; eexists _, _; (split; [exact Hrun|]).
  all: split_and!.
  all: try (intros k; rewrite calls_from_lookup; unfold job_locations;
            rewrite lookup_take; simpl (0 + k)%nat;
            destruct (k <? 20)%nat eqn:Hk;
            [apply Nat.ltb_lt in Hk; by case_decide
            |apply Nat.ltb_ge in Hk; case_decide; [lia|done]]).
  all: try (rewrite length_calls_from; apply length_job_locations).
  all: try (cbn [completed set_updated_at set_status set_error];
            unfold finalize in Hfin; simpl in Hfin).
  - destruct (_ && _) in Hfin; [destruct (py_join _ _) in Hfin|];
      inversion Hfin; simpl; apply length_job_locations.
  - done.
  - destruct (_ && _) in Hfin; [destruct (py_join _ _) in Hfin|];
      inversion Hfin; simpl; apply length_job_locations.
  - by right.
Qed.

(** C8: of a payload with M locations the controller hands exactly the
    first min(M, 20) to the worker, in the order of submission: call number
    k is made for location number k when k < 20, and there is no further
    call; without a cancellation completed = min(M, 20) when the job is
    DONE or FAILED. *)
Theorem first_twenty_processed rt self p job_id tc tu t0 t1 :
  (0 < per_job_concurrency self)%Z ->
  exists j,
    processed rt (fst (submit self p job_id tc tu)) job_id t0 t1 = Some j
    /\ (forall k,
          snd (_process_job rt (fst (submit self p job_id tc tu))
                 job_id t0 t1) !! k =
            if (k <? 20)%nat
            then (fun loc => fst (_run_single_location self k loc (p_proxy p)))
                   <$> payload_locations p !! k
            else None)
    /\ length (snd (_process_job rt (fst (submit self p job_id tc tu))
                      job_id t0 t1))
       = (length (payload_locations p) `min` 20)%nat
    /\ completed j = (length (payload_locations p) `min` 20)%nat
    /\ (status j = DONE \/ status j = FAILED).
Proof.
  intros HK.
  destruct (fresh_job_run rt self p job_id tc tu t0 t1 HK)
    as (j & calls & Hrun & Hcalls & Hlen & Hcompl & Hst).
  exists j. unfold processed. rewrite Hrun. cbn [fst snd].
  by rewrite get_put.
Qed.

Lemma first_twenty_processed_witness :
  exists j,
    processed posix_rt
      (fst (submit (init worker_ok 2 20)
              (sample_payload (replicate 22 (sample_location 1 2)))
              "3f9a1c0b2d4e5f60" 100 100))
      "3f9a1c0b2d4e5f60" 101 102 = Some j
    /\ (forall k,
          snd (_process_job posix_rt
                 (fst (submit (init worker_ok 2 20)
                         (sample_payload (replicate 22 (sample_location 1 2)))
                         "3f9a1c0b2d4e5f60" 100 100))
                 "3f9a1c0b2d4e5f60" 101 102) !! k =
            if (k <? 20)%nat
            then (fun loc =>
                    fst (_run_single_location (init worker_ok 2 20) k loc
                           (p_proxy
                              (sample_payload
                                 (replicate 22 (sample_location 1 2))))))
                   <$> payload_locations
                         (sample_payload (replicate 22 (sample_location 1 2)))
                       !! k
            else None)
    /\ length (snd (_process_job posix_rt
                      (fst (submit (init worker_ok 2 20)
                              (sample_payload
                                 (replicate 22 (sample_location 1 2)))
                              "3f9a1c0b2d4e5f60" 100 100))
                      "3f9a1c0b2d4e5f60" 101 102))
       = (length (payload_locations
                    (sample_payload (replicate 22 (sample_location 1 2))))
          `min` 20)%nat
    /\ completed j
       = (length (payload_locations
                    (sample_payload (replicate 22 (sample_location 1 2))))
          `min` 20)%nat
    /\ (status j = DONE \/ status j = FAILED).
Proof.
  apply (first_twenty_processed posix_rt (init worker_ok 2 20)
           (sample_payload (replicate 22 (sample_location 1 2)))).
  simpl. lia.
Defined.

(** ** Terminal status *)

Lemma settle_terminal self job_id t1 (f : flow JobRecord) :
  (forall j, f = Normal j -> status j = DONE \/ status j = FAILED) ->
  (forall j, f <> Blocked j) ->
  exists j,
    settle self job_id t1 f
      = Normal (set_jobs (<[job_id := j]> (_jobs self)) self)
    /\ (status j = DONE \/ status j = FAILED)
    /\ updated_at j = t1.
Proof.
  intros Hn Hb. destruct f as [j|j e|j]; simpl.
  - eexists. split; [done|]. split; [|done]. simpl. by apply Hn.
  - eexists. split; [done|]. split; [|done]. by right.
  - by destruct (Hb j).
Qed.

Lemma finalize_terminal job n (rs : list (option pydict)) :
  cancel_requested job = false ->
  (forall j, finalize job n rs = Normal j -> status j = DONE \/ status j = FAILED)
  /\ (forall j, finalize job n rs <> Blocked j).
Proof.
  intros Hc.
  destruct (finalize_settles job n rs Hc) as [(j & -> & Hst)|(j & e & ->)];
    split; intros j'; try done.
  by intros [= <-].
Qed.

(** For a payload that follows the documentation of [submit] (its
    locations are a list, or absent): when a worker processes a job whose
    cancellation was not requested and [_process_job] runs to its end (the
    gate is not one of capacity zero facing a location, which no task could
    pass), the job ends DONE or FAILED: also when the worker raises, when
    the URL derivation raises, when creating the gate raises, or when the
    final block itself raises. *)
Theorem non_canceled_job_settles rt self job_id job t0 t1 :
  _jobs self !! job_id = Some job ->
  cancel_requested job = false ->
  per_job_concurrency self <> 0%Z \/ job_locations (payload job) = [] ->
  exists j,
    processed rt self job_id t0 t1 = Some j
    /\ (status j = DONE \/ status j = FAILED)
    /\ updated_at j = t1.
Proof.
  intros Hj Hc Hgate.
  set (job0 := set_updated_at t0 (set_status RUNNING job)).
  assert (exists j,
            fst (_process_job rt self job_id t0 t1)
              = Normal (set_jobs (<[job_id := j]> (_jobs self)) self)
            /\ (status j = DONE \/ status j = FAILED)
            /\ updated_at j = t1) as (j & Hrun & Hst & Hup).
  { destruct (Z.lt_trichotomy (per_job_concurrency self) 0)
      as [Hneg|[Hzero|Hpos]].
    - rewrite (process_job_settle _ _ _ _ _ _ Hj).
      rewrite try_body_negative by done. cbn [fst].
      by apply settle_terminal.
    - destruct Hgate as [Hgate|Hgate]; [done|].
      rewrite (process_job_settle _ _ _ _ _ _ Hj), Hgate.
      rewrite try_body_empty by lia. cbn [fst].
      apply settle_terminal; by apply finalize_terminal.
    - rewrite (process_job_no_cancel _ _ _ _ _ _ Hj Hc Hpos). cbn [fst].
      apply settle_terminal; by apply finalize_terminal. }
  exists j. unfold processed. rewrite Hrun. by rewrite get_put.
Qed.

Lemma non_canceled_job_settles_witness :
  exists j,
    processed posix_rt
      (fst (submit (init worker_second_raises 2 20)
              (sample_payload three_locations) "3f9a1c0b2d4e5f60" 100 100))
      "3f9a1c0b2d4e5f60" 101 102 = Some j
    /\ (status j = DONE \/ status j = FAILED)
    /\ updated_at j = 102%Z.
Proof.
  apply (non_canceled_job_settles posix_rt
           (fst (submit (init worker_second_raises 2 20)
                   (sample_payload three_locations)
                   "3f9a1c0b2d4e5f60" 100 100))
           "3f9a1c0b2d4e5f60"
           (fresh_job (sample_payload three_locations) 100 100)).
  - vm_compute. reflexivity.
  - reflexivity.
  - left. simpl. lia.
Defined.

(** An exception raised inside the [try] statement (here by the creation
    of the gate) ends the job as FAILED. *)
Example negative_gate_fails :
  (fun j => (status j, error j))
    <$> processed posix_rt
          (fst (submit (init worker_ok 2 (-1)) (sample_payload three_locations)
                  "3f9a1c0b2d4e5f60" 100 100))
          "3f9a1c0b2d4e5f60" 101 102
  = Some (FAILED,
          Some "Job processing failed: Semaphore initial value must be >= 0").
Proof. vm_compute. reflexivity. Qed.

(** ** The facade *)

(** C7: [cancel] returns nothing for an unknown identifier; it returns the
    record of a job that is DONE, FAILED or CANCELED and changes nothing;
    otherwise it sets cancel_requested, sets the status to CANCELED at
    once, refreshes updated_at, leaves every other field as it was, and
    returns the record. *)
Theorem cancel_spec self job_id now :
  match get self job_id with
  | None => cancel self job_id now = (self, None)
  | Some job =>
      if is_terminal (status job)
      then cancel self job_id now = (self, Some job)
      else
        exists job',
          snd (cancel self job_id now) = Some job'
          /\ get (fst (cancel self job_id now)) job_id = Some job'
          /\ cancel_requested job' = true
          /\ status job' = CANCELED
          /\ updated_at job' = now
          /\ payload job' = payload job
          /\ result job' = result job
          /\ error job' = error job
          /\ completed job' = completed job
          /\ failure job' = failure job
          /\ created_at job' = created_at job
          /\ _logged_to_db job' = _logged_to_db job
          /\ (forall other, other <> job_id ->
                get (fst (cancel self job_id now)) other = get self other)
  end.
Proof.
  unfold get, cancel.
  destruct (_jobs self !! job_id) as [job|] eqn:Hj; [|done].
  destruct (is_terminal (status job)) eqn:Ht; [done|].
  eexists. split; [done|]. cbn [fst set_jobs _jobs].
  rewrite lookup_insert_eq. split_and!; try done.
  intros other Hne. by rewrite lookup_insert_ne.
Qed.

(** C9: [remove] never fails; after it [get] finds nothing under the
    identifier, whatever the state was; removing twice is removing once;
    removing an identifier that is not in the store changes nothing, and
    [get] on such an identifier finds nothing. *)
Theorem remove_spec self job_id :
  get (remove self job_id) job_id = None
  /\ remove (remove self job_id) job_id = remove self job_id
  /\ (job_id ∉ dom (_jobs self) ->
      remove self job_id = self /\ get self job_id = None).
Proof.
  unfold get, remove. cbn [_jobs set_jobs]. split_and!.
  - apply lookup_delete_eq.
  - unfold set_jobs. cbn. by rewrite delete_delete_eq.
  - intros Hdom%not_elem_of_dom. split; [|done].
    rewrite delete_id by done. apply set_jobs_same.
Qed.

Lemma remove_spec_witness :
  remove (init worker_ok 2 20) "3f9a1c0b2d4e5f60" = init worker_ok 2 20
  /\ get (init worker_ok 2 20) "3f9a1c0b2d4e5f60" = None.
Proof.
  apply (remove_spec (init worker_ok 2 20) "3f9a1c0b2d4e5f60").
  vm_compute. discriminate.
Defined.

(** ** Claiming a canceled job *)

(** A job whose cancellation was requested before a worker claims it is
    given no task, and the final block is skipped: what is left of
    [_process_job] is the assignment of RUNNING and the two time stamps. *)
Lemma process_job_canceled rt self job_id job t0 t1 :
  _jobs self !! job_id = Some job ->
  cancel_requested job = true ->
  (0 <= per_job_concurrency self)%Z ->
  _process_job rt self job_id t0 t1 =
    (Normal (set_jobs (<[job_id := set_updated_at t1 (set_status RUNNING job)]>
                         (_jobs self)) self),
     []).
Proof.
  intros Hj Hc HK. rewrite (process_job_settle _ _ _ _ _ _ Hj).
  unfold try_body.
  destruct (per_job_concurrency self <? 0)%Z eqn:Hneg; [lia|].
  rewrite create_tasks_cancel by done.
  cbn [collect fst snd]. unfold finalize.
  cbn [cancel_requested set_updated_at set_status]. rewrite Hc.
  done.
Qed.

(** C1, on the code: a job is submitted, [cancel] sets it to CANCELED, and
    the worker that then takes its identifier from the admission queue sets
    it to RUNNING; nothing sets it back, so the terminal status CANCELED has
    been left and the job stays RUNNING with its cancellation requested. *)
Theorem canceled_job_set_running :
  let q1 := fst (submit (init worker_ok 2 20) (sample_payload three_locations)
                   "3f9a1c0b2d4e5f60" 100 100) in
  let q2 := fst (cancel q1 "3f9a1c0b2d4e5f60" 101) in
  (status <$> get q2 "3f9a1c0b2d4e5f60" = Some CANCELED)
  /\ (exists q3,
        _worker_loop_step posix_rt q2 102 103 = (Normal q3, [])
        /\ status <$> get q3 "3f9a1c0b2d4e5f60" = Some RUNNING
        /\ cancel_requested <$> get q3 "3f9a1c0b2d4e5f60" = Some true
        /\ is_terminal <$> (status <$> get q3 "3f9a1c0b2d4e5f60")
           = Some false).
Proof.
  intros q1 q2. split; [by vm_compute|].
  eexists. split; [|split_and!].
  - unfold _worker_loop_step. cbn [_running q2 q1 submit cancel fst].
    vm_compute _queue.
    apply (process_job_canceled posix_rt _ "3f9a1c0b2d4e5f60"
             (set_updated_at 101
                (set_status CANCELED
                   (set_cancel_requested true
                      (fresh_job (sample_payload three_locations) 100 100))))).
    + by vm_compute.
    + done.
    + by vm_compute.
  - by rewrite get_put.
  - by rewrite get_put.
  - by rewrite get_put.
Qed.

(** * Further properties of the queue *)

(** ** Submitting and canceling *)

(** X1: [submit] stores a PENDING record with empty result and zero
    counters that [get] returns under the new identifier, puts the
    identifier at the back of the admission queue, and leaves every other
    record as it was (a record that was stored under the same identifier
    is replaced). *)
Theorem submit_get self p job_id tc tu :
  snd (submit self p job_id tc tu) = job_id
  /\ get (fst (submit self p job_id tc tu)) job_id
     = Some (fresh_job p tc tu)
  /\ _queue (fst (submit self p job_id tc tu)) = _queue self ++ [job_id]
  /\ (forall other, other <> job_id ->
        get (fst (submit self p job_id tc tu)) other = get self other).
Proof.
  unfold get. cbn [submit fst snd set_queue set_jobs _jobs _queue].
  split_and!; try done.
  - by rewrite lookup_insert_eq.
  - intros other Hne. by rewrite lookup_insert_ne.
Qed.

(** X2: [cancel] is idempotent: a second [cancel] of the same job, at any
    later time, returns the record the first one returned and changes
    nothing, so [updated_at] keeps the time of the first call. *)
Theorem cancel_idempotent self job_id now later :
  cancel (fst (cancel self job_id now)) job_id later
  = (fst (cancel self job_id now), snd (cancel self job_id now)).
Proof.
  destruct (_jobs self !! job_id) as [job|] eqn:Hj.
  - destruct (is_terminal (status job)) eqn:Ht.
    + unfold cancel. rewrite Hj, Ht. cbn [fst snd]. by rewrite Hj, Ht.
    + unfold cancel. rewrite Hj, Ht. cbn [fst snd _jobs set_jobs].
      by rewrite lookup_insert_eq.
  - unfold cancel. rewrite Hj. cbn [fst snd]. by rewrite Hj.
Qed.

(** X3: neither [cancel] nor [remove] takes the identifier out of the
    admission queue; a worker that is handed the identifier of a job that
    has been removed drops it: it calls no worker and changes no record. *)
Theorem removed_job_skipped rt self job_id rest now t0 t1 :
  _queue (fst (cancel self job_id now)) = _queue self
  /\ _queue (remove self job_id) = _queue self
  /\ (_running self = true ->
      _queue self = job_id :: rest ->
      _worker_loop_step rt (remove self job_id) t0 t1
      = (Normal (set_queue rest (remove self job_id)), [])).
Proof.
  split_and!.
  - unfold cancel. destruct (_jobs self !! job_id) as [job|]; [|done].
    by destruct (is_terminal (status job)).
  - done.
  - intros Hrun Hq. unfold _worker_loop_step, remove.
    cbn [set_jobs _running _queue]. rewrite Hrun, Hq.
    unfold _process_job. cbn [set_queue set_jobs _jobs].
    by rewrite lookup_delete_eq.
Qed.

Lemma removed_job_skipped_witness :
  _worker_loop_step posix_rt
    (remove (fst (submit (init worker_ok 2 20) (sample_payload three_locations)
                    "3f9a1c0b2d4e5f60" 100 100)) "3f9a1c0b2d4e5f60")
    101 102
  = (Normal
       (set_queue []
          (remove (fst (submit (init worker_ok 2 20)
                          (sample_payload three_locations)
                          "3f9a1c0b2d4e5f60" 100 100)) "3f9a1c0b2d4e5f60")),
     []).
Proof.
  apply (removed_job_skipped posix_rt
           (fst (submit (init worker_ok 2 20) (sample_payload three_locations)
                   "3f9a1c0b2d4e5f60" 100 100))
           "3f9a1c0b2d4e5f60" [] 0 101 102).
  - reflexivity.
  - reflexivity.
Defined.

(** ** What one run of the controller changes *)

Lemma advances_refl j : advances j j.
Proof. by unfold advances. Qed.

Lemma advances_trans j1 j2 j3 : advances j1 j2 -> advances j2 j3 -> advances j1 j3.
Proof.
  unfold advances. intros (?&?&?&?&?&?) (?&?&?&?&?&?).
  split_and!; try congruence; lia.
Qed.

Lemma try_body_canceled rt self job locs :
  cancel_requested job = true ->
  (0 <= per_job_concurrency self)%Z ->
  try_body rt self job locs = (Normal job, []).
Proof.
  intros Hc HK. unfold try_body.
  destruct (per_job_concurrency self <? 0)%Z eqn:Hneg; [lia|].
  rewrite create_tasks_cancel by done.
  cbn [collect]. unfold finalize. by rewrite Hc.
Qed.

Lemma try_body_zero_gate rt self job locs :
  cancel_requested job = false ->
  per_job_concurrency self = 0%Z ->
  locs <> [] ->
  try_body rt self job locs = (Blocked job, []).
Proof.
  intros Hc HK Hlocs. unfold try_body. rewrite HK. simpl (0 <? 0)%Z. cbv iota.
  rewrite create_tasks_no_cancel by done.
  destruct locs as [|loc locs]; [done|]. done.
Qed.

Lemma finalize_value job n (rs : list (option pydict)) :
  advances job (flow_value (finalize job n rs))
  /\ completed (flow_value (finalize job n rs)) = completed job
  /\ failure (flow_value (finalize job n rs)) = failure job.
Proof.
  unfold finalize. destruct (cancel_requested job); [by split|].
  destruct (_ && _); [destruct (py_join _ _)|]; by split.
Qed.

(** The record the [try] statement leaves, however it ends. *)
Lemma try_body_value rt self job locs :
  advances job (flow_value (fst (try_body rt self job locs)))
  /\ (completed (flow_value (fst (try_body rt self job locs)))
      <= completed job + length locs)%nat
  /\ (failure (flow_value (fst (try_body rt self job locs))) + completed job
      <= failure job
         + completed (flow_value (fst (try_body rt self job locs))))%nat.
Proof.
  destruct (Z.lt_trichotomy (per_job_concurrency self) 0)
    as [Hneg|[Hzero|Hpos]].
  - rewrite try_body_negative by done. cbn [fst flow_value].
    split; [apply advances_refl|lia].
  - destruct (cancel_requested job) eqn:Hc.
    + rewrite try_body_canceled by (done || lia). cbn [fst flow_value].
      split; [apply advances_refl|lia].
    + destruct locs as [|loc locs].
      * rewrite try_body_empty by lia. cbn [fst].
        destruct (finalize_value job 0 []) as (Ha & Hcm & Hf).
        split; [done|]. rewrite Hcm, Hf. simpl. lia.
      * rewrite try_body_zero_gate by done. cbn [fst flow_value].
        split; [apply advances_refl|lia].
  - destruct (cancel_requested job) eqn:Hc.
    + rewrite try_body_canceled by (done || lia). cbn [fst flow_value].
      split; [apply advances_refl|lia].
    + rewrite try_body_no_cancel by done. cbn [fst].
      set (os := outcomes_from self (p_proxy (payload job)) 0 locs).
      set (job1 := set_completed _ _).
      destruct (finalize_value job1 (length locs)
                  (map (stored rt (payload job)) (map task_value os)))
        as (Ha & Hcm & Hf).
      pose proof (count_where_le raises os) as Hle.
      unfold os in Hle at 2. rewrite length_outcomes_from in Hle.
      split.
      * eapply advances_trans; [|exact Ha].
        unfold advances, job1. simpl. split_and!; try done; lia.
      * rewrite Hcm, Hf. unfold job1. simpl. lia.
Qed.

Lemma settle_value self job_id t1 (f : flow JobRecord) :
  exists j,
    flow_value (settle self job_id t1 f)
      = set_jobs (<[job_id := j]> (_jobs self)) self
    /\ advances (flow_value f) j
    /\ completed j = completed (flow_value f)
    /\ failure j = failure (flow_value f).
Proof.
  destruct f as [j|j e|j]; simpl; eexists; (split; [done|]);
    (split; [apply advances_refl || by unfold advances|done]).
Qed.

(** The record [_process_job] leaves for a job of the store. *)
Lemma process_job_value rt self job_id job t0 t1 :
  _jobs self !! job_id = Some job ->
  exists j,
    flow_value (fst (_process_job rt self job_id t0 t1))
      = set_jobs (<[job_id := j]> (_jobs self)) self
    /\ advances job j
    /\ (completed j <= completed job + length (job_locations (payload job)))%nat
    /\ (failure j + completed job <= failure job + completed j)%nat.
Proof.
  intros Hj. rewrite (process_job_settle _ _ _ _ _ _ Hj). cbn [fst].
  set (job0 := set_updated_at t0 (set_status RUNNING job)).
  destruct (try_body_value rt self job0 (job_locations (payload job)))
    as (Ha & Hc & Hf).
  destruct (settle_value self job_id t1
              (fst (try_body rt self job0 (job_locations (payload job)))))
    as (j & Hv & Ha' & Hcm & Hfl).
  exists j. split; [done|]. rewrite Hcm, Hfl. split_and!; try done.
  eapply advances_trans; [|exact Ha'].
  eapply advances_trans; [|exact Ha]. by unfold advances.
Qed.

(** X4: a run of [_process_job], whether it returns or not, touches the
    record of its own job only: every other record, the set of stored
    identifiers, the admission queue and the configuration are as before. *)
Theorem process_job_frame rt self job_id t0 t1 :
  (forall other, other <> job_id ->
     get (flow_value (fst (_process_job rt self job_id t0 t1))) other
     = get self other)
  /\ dom (_jobs (flow_value (fst (_process_job rt self job_id t0 t1))))
     = dom (_jobs self)
  /\ _queue (flow_value (fst (_process_job rt self job_id t0 t1)))
     = _queue self
  /\ per_job_concurrency (flow_value (fst (_process_job rt self job_id t0 t1)))
     = per_job_concurrency self
  /\ _running (flow_value (fst (_process_job rt self job_id t0 t1)))
     = _running self.
Proof.
  destruct (_jobs self !! job_id) as [job|] eqn:Hj.
  - destruct (process_job_value rt self job_id job t0 t1 Hj) as (j & -> & _).
    unfold get. cbn [_jobs set_jobs _queue per_job_concurrency _running].
    split_and!; try done.
    + intros other Hne. by rewrite lookup_insert_ne.
    + by apply dom_insert_lookup_L.
  - unfold _process_job. rewrite Hj. cbn [fst flow_value]. by split_and!.
Qed.

(** X5: a run of [_process_job], whether it returns or not, keeps the
    payload, the creation time, the cancellation latch and the logging
    latch of the job; its counters never decrease, completed grows by the
    number of locations of the job (twenty at most) at most, and failure
    grows no more than completed does. *)
Theorem process_job_advances rt self job_id job t0 t1 :
  _jobs self !! job_id = Some job ->
  exists j,
    get (flow_value (fst (_process_job rt self job_id t0 t1))) job_id = Some j
    /\ advances job j
    /\ (completed j <= completed job + 20)%nat
    /\ (failure j - failure job <= completed j - completed job)%nat.
Proof.
  intros Hj.
  destruct (process_job_value rt self job_id job t0 t1 Hj)
    as (j & -> & Ha & Hc & Hf).
  exists j. rewrite get_put. split_and!; try done.
  - pose proof (length_job_locations (payload job)). lia.
  - lia.
Qed.

Lemma process_job_advances_witness :
  exists j,
    get (flow_value
           (fst (_process_job posix_rt
                   (fst (submit (init worker_second_raises 2 20)
                           (sample_payload three_locations)
                           "3f9a1c0b2d4e5f60" 100 100))
                   "3f9a1c0b2d4e5f60" 101 102)))
      "3f9a1c0b2d4e5f60" = Some j
    /\ advances (fresh_job (sample_payload three_locations) 100 100) j
    /\ (completed j
        <= completed (fresh_job (sample_payload three_locations) 100 100) + 20)%nat
    /\ (failure j - failure (fresh_job (sample_payload three_locations) 100 100)
        <= completed j
           - completed (fresh_job (sample_payload three_locations) 100 100))%nat.
Proof.
  apply (process_job_advances posix_rt
           (fst (submit (init worker_second_raises 2 20)
                   (sample_payload three_locations)
                   "3f9a1c0b2d4e5f60" 100 100))
           "3f9a1c0b2d4e5f60"
           (fresh_job (sample_payload three_locations) 100 100)).
  vm_compute. reflexivity.
Defined.

(** X6: a job whose cancellation was requested before a worker claims it
    is never handed to the worker callable: [_process_job] makes no call
    and leaves the result, the error and both counters as they were.  It
    sets the status to RUNNING and the time stamp, and returns. *)
Theorem canceled_job_not_processed rt self job_id job t0 t1 :
  _jobs self !! job_id = Some job ->
  cancel_requested job = true ->
  (0 <= per_job_concurrency self)%Z ->
  snd (_process_job rt self job_id t0 t1) = []
  /\ exists j,
       processed rt self job_id t0 t1 = Some j
       /\ result j = result job
       /\ error j = error job
       /\ completed j = completed job
       /\ failure j = failure job
       /\ cancel_requested j = true
       /\ status j = RUNNING
       /\ updated_at j = t1.
Proof.
  intros Hj Hc HK. unfold processed.
  rewrite (process_job_canceled rt self job_id job t0 t1 Hj Hc HK).
  cbn [fst snd]. split; [done|]. rewrite get_put.
  eexists. by split_and!.
Qed.

Lemma canceled_job_not_processed_witness :
  snd (_process_job posix_rt
         (fst (cancel (fst (submit (init worker_ok 2 20)
                              (sample_payload three_locations)
                              "3f9a1c0b2d4e5f60" 100 100))
                 "3f9a1c0b2d4e5f60" 101))
         "3f9a1c0b2d4e5f60" 102 103) = []
  /\ exists j,
       processed posix_rt
         (fst (cancel (fst (submit (init worker_ok 2 20)
                              (sample_payload three_locations)
                              "3f9a1c0b2d4e5f60" 100 100))
                 "3f9a1c0b2d4e5f60" 101))
         "3f9a1c0b2d4e5f60" 102 103 = Some j
       /\ result j
          = result (set_updated_at 101
                      (set_status CANCELED
                         (set_cancel_requested true
                            (fresh_job (sample_payload three_locations)
                               100 100))))
       /\ error j
          = error (set_updated_at 101
                      (set_status CANCELED
                         (set_cancel_requested true
                            (fresh_job (sample_payload three_locations)
                               100 100))))
       /\ completed j
          = completed (set_updated_at 101
                      (set_status CANCELED
                         (set_cancel_requested true
                            (fresh_job (sample_payload three_locations)
                               100 100))))
       /\ failure j
          = failure (set_updated_at 101
                      (set_status CANCELED
                         (set_cancel_requested true
                            (fresh_job (sample_payload three_locations)
                               100 100))))
       /\ cancel_requested j = true
       /\ status j = RUNNING
       /\ updated_at j = 103%Z.
Proof.
  apply (canceled_job_not_processed posix_rt
           (fst (cancel (fst (submit (init worker_ok 2 20)
                                (sample_payload three_locations)
                                "3f9a1c0b2d4e5f60" 100 100))
                   "3f9a1c0b2d4e5f60" 101))
           "3f9a1c0b2d4e5f60"
           (set_updated_at 101
              (set_status CANCELED
                 (set_cancel_requested true
                    (fresh_job (sample_payload three_locations) 100 100))))).
  - vm_compute. reflexivity.
  - reflexivity.
  - vm_compute. discriminate.
Defined.

(** X7: with a negative per_job_concurrency the creation of the gate
    raises inside the [try] statement: every job that is claimed, canceled
    or not, ends FAILED with the message of that exception, no location is
    handed to the worker, and the result and the counters stay as they
    were. *)
Theorem negative_gate_fails_job rt self job_id job t0 t1 :
  _jobs self !! job_id = Some job ->
  (per_job_concurrency self < 0)%Z ->
  snd (_process_job rt self job_id t0 t1) = []
  /\ exists j,
       processed rt self job_id t0 t1 = Some j
       /\ status j = FAILED
       /\ error j
          = Some "Job processing failed: Semaphore initial value must be >= 0"
       /\ result j = result job
       /\ completed j = completed job
       /\ failure j = failure job.
Proof.
  intros Hj HK. unfold processed.
  rewrite (process_job_settle _ _ _ _ _ _ Hj).
  rewrite try_body_negative by done. cbn [fst snd settle].
  split; [done|]. rewrite get_put. eexists. by split_and!.
Qed.

Lemma negative_gate_fails_job_witness :
  snd (_process_job posix_rt
         (fst (submit (init worker_ok 2 (-1)) (sample_payload three_locations)
                 "3f9a1c0b2d4e5f60" 100 100))
         "3f9a1c0b2d4e5f60" 101 102) = []
  /\ exists j,
       processed posix_rt
         (fst (submit (init worker_ok 2 (-1)) (sample_payload three_locations)
                 "3f9a1c0b2d4e5f60" 100 100))
         "3f9a1c0b2d4e5f60" 101 102 = Some j
       /\ status j = FAILED
       /\ error j
          = Some "Job processing failed: Semaphore initial value must be >= 0"
       /\ result j
          = result (fresh_job (sample_payload three_locations) 100 100)
       /\ completed j
          = completed (fresh_job (sample_payload three_locations) 100 100)
       /\ failure j
          = failure (fresh_job (sample_payload three_locations) 100 100).
Proof.
  apply (negative_gate_fails_job posix_rt
           (fst (submit (init worker_ok 2 (-1)) (sample_payload three_locations)
                   "3f9a1c0b2d4e5f60" 100 100))
           "3f9a1c0b2d4e5f60"
           (fresh_job (sample_payload three_locations) 100 100)).
  - vm_compute. reflexivity.
  - simpl. lia.
Defined.

(** X8: with per_job_concurrency = 0 no task can pass the gate: for a job
    that is not canceled and has a location, [_process_job] never returns,
    the worker is never called, and the job stays RUNNING. *)
Theorem zero_gate_blocks_job rt self job_id job t0 t1 :
  _jobs self !! job_id = Some job ->
  cancel_requested job = false ->
  per_job_concurrency self = 0%Z ->
  job_locations (payload job) <> [] ->
  exists self' j,
    _process_job rt self job_id t0 t1 = (Blocked self', [])
    /\ get self' job_id = Some j
    /\ status j = RUNNING
    /\ completed j = completed job
    /\ failure j = failure job
    /\ result j = result job.
Proof.
  intros Hj Hc HK Hlocs. rewrite (process_job_settle _ _ _ _ _ _ Hj).
  rewrite try_body_zero_gate by done. cbn [fst snd settle].
  eexists _, _. split; [done|]. rewrite get_put. by split_and!.
Qed.

Lemma zero_gate_blocks_job_witness :
  exists self' j,
    _process_job posix_rt
      (fst (submit (init worker_ok 2 0) (sample_payload three_locations)
              "3f9a1c0b2d4e5f60" 100 100))
      "3f9a1c0b2d4e5f60" 101 102 = (Blocked self', [])
    /\ get self' "3f9a1c0b2d4e5f60" = Some j
    /\ status j = RUNNING
    /\ completed j
       = completed (fresh_job (sample_payload three_locations) 100 100)
    /\ failure j
       = failure (fresh_job (sample_payload three_locations) 100 100)
    /\ result j = result (fresh_job (sample_payload three_locations) 100 100).
Proof.
  apply (zero_gate_blocks_job posix_rt
           (fst (submit (init worker_ok 2 0) (sample_payload three_locations)
                   "3f9a1c0b2d4e5f60" 100 100))
           "3f9a1c0b2d4e5f60"
           (fresh_job (sample_payload three_locations) 100 100)).
  - vm_compute. reflexivity.
  - reflexivity.
  - reflexivity.
  - vm_compute. discriminate.
Defined.

(** ** The record of a processed job *)

Lemma stored_entries rt p (v : pyobj) d :
  stored rt p v = Some d ->
  exists u,
    d !! "screenshot_url" = Some u /\ (u = VNone \/ exists s, u = VStr s).
Proof.
  unfold stored. destruct (obj_truthy v); [|done].
  destruct v as [d0|v]; [|done]. intros [= <-].
  exists (screenshot_url_of rt p d0). rewrite lookup_insert_eq. split; [done|].
  unfold screenshot_url_of. destruct (truthy _); [|by left].
  destruct (os_path_relpath _ _ _); [|by left].
  destruct (urljoin _ _ _); [right; eauto|by left].
Qed.

Lemma successes_stored rt p (vs : list pyobj) :
  Forall (fun d =>
            dict_has d "error" = false
            /\ exists u,
                 d !! "screenshot_url" = Some u
                 /\ (u = VNone \/ exists s, u = VStr s))
         (successes (map (stored rt p) vs)).
Proof.
  induction vs as [|v vs IH]; [constructor|].
  cbn [map]. rewrite successes_cons.
  destruct (stored rt p v) as [d|] eqn:Hs; [|done].
  destruct (is_success (Some d)) eqn:Hok; [|done].
  constructor; [|done]. split.
  - simpl in Hok. by apply andb_true_iff in Hok as [_ ?%negb_true_iff].
  - by apply (stored_entries rt p v).
Qed.

Lemma successes_all_records rt p (ds : list pydict) :
  forallb (fun d => well_formed_result (ODict d)) ds = true ->
  successes (map (stored rt p) (map task_value (map (fun d => Returns (ODict d)) ds)))
  = map (fun d => <["screenshot_url" := screenshot_url_of rt p d]> d) ds.
Proof.
  induction ds as [|d ds IH]; [done|].
  cbn [forallb map]. intros [Hd Hds]%andb_true_iff.
  rewrite successes_cons.
  pose proof (recorded_succeeds rt p (Returns (ODict d)) Hd) as Hrec.
  unfold recorded in Hrec. cbn [task_value] in *.
  simpl in Hd. apply andb_true_iff in Hd as [Hscore _].
  unfold stored in *. cbn [obj_truthy] in *.
  rewrite (dict_truthy_has d "score" Hscore) in *.
  rewrite Hrec. f_equal. by apply IH.
Qed.

(** X9: the record of a job that was submitted and processed without a
    cancellation satisfies: result.count is the length of
    result.locations; every success and every failure was counted in
    completed, which is the number of locations of the payload capped at
    twenty; every recorded location has no "error" entry and has a
    "screenshot_url" entry that is None or a string. *)
Theorem processed_job_invariants rt self p job_id tc tu t0 t1 :
  (0 < per_job_concurrency self)%Z ->
  exists j,
    processed rt (fst (submit self p job_id tc tu)) job_id t0 t1 = Some j
    /\ count (result j) = length (locations (result j))
    /\ (count (result j) + failure j <= completed j)%nat
    /\ completed j = (length (payload_locations p) `min` 20)%nat
    /\ (completed j <= 20)%nat
    /\ Forall (fun d =>
                 dict_has d "error" = false
                 /\ exists u,
                      d !! "screenshot_url" = Some u
                      /\ (u = VNone \/ exists s, u = VStr s))
              (locations (result j)).
Proof.
  intros HK.
  destruct (processed_fresh rt self p job_id tc tu t0 t1 HK)
    as (j & Hj & Hcompl & Hfail & Hlocs & Hcount & _ & _ & _).
  pose proof (count_outcomes_le rt p (outcomes self p)) as Hle.
  rewrite (length_outcomes self p) in Hle.
  pose proof (length_job_locations p) as Hlen.
  exists j. split_and!; try done.
  - rewrite Hcount, Hlocs. symmetry. apply length_successes.
  - lia.
  - lia.
  - lia.
  - rewrite Hlocs. apply successes_stored.
Qed.

Lemma processed_job_invariants_witness :
  exists j,
    processed posix_rt
      (fst (submit (init worker_second_raises 2 20)
              (sample_payload three_locations) "3f9a1c0b2d4e5f60" 100 100))
      "3f9a1c0b2d4e5f60" 101 102 = Some j
    /\ count (result j) = length (locations (result j))
    /\ (count (result j) + failure j <= completed j)%nat
    /\ completed j
       = (length (payload_locations (sample_payload three_locations))
          `min` 20)%nat
    /\ (completed j <= 20)%nat
    /\ Forall (fun d =>
                 dict_has d "error" = false
                 /\ exists u,
                      d !! "screenshot_url" = Some u
                      /\ (u = VNone \/ exists s, u = VStr s))
              (locations (result j)).
Proof.
  apply (processed_job_invariants posix_rt (init worker_second_raises 2 20)
           (sample_payload three_locations)).
  simpl. lia.
Defined.

(** X10: a job that was submitted and processed without a cancellation is
    FAILED exactly when it has at least one location and the worker raised
    for every one of them; in every other case it is DONE, and its error is
    None exactly when it is DONE. *)
Theorem failed_iff_all_raise rt self p job_id tc tu t0 t1 :
  (0 < per_job_concurrency self)%Z ->
  exists j,
    processed rt (fst (submit self p job_id tc tu)) job_id t0 t1 = Some j
    /\ (status j = FAILED <->
        job_locations p <> [] /\ forallb raises (outcomes self p) = true)
    /\ (status j = DONE <->
        job_locations p = [] \/ forallb raises (outcomes self p) = false)
    /\ (error j = None <-> status j = DONE).
Proof.
  intros HK.
  destruct (processed_fresh rt self p job_id tc tu t0 t1 HK)
    as (j & Hj & _ & _ & _ & _ & _ & _ & Hst).
  exists j. split; [done|].
  destruct (job_locations p) as [|loc locs] eqn:Hlocs; cbn [length] in Hst.
  - simpl in Hst. destruct Hst as [-> ->].
    split_and!; split; try done; try by intros [? _]. by left.
  - simpl in Hst. destruct (forallb raises (outcomes self p)).
    + destruct Hst as [-> ->]. split_and!; split; try done.
      by intros [|].
    + destruct Hst as [-> ->]. split_and!; split; try done.
      * by intros [_ ?].
      * by right.
Qed.

Lemma failed_iff_all_raise_witness :
  exists j,
    processed posix_rt
      (fst (submit (init worker_raise 2 20) (sample_payload three_locations)
              "3f9a1c0b2d4e5f60" 100 100))
      "3f9a1c0b2d4e5f60" 101 102 = Some j
    /\ (status j = FAILED <->
        job_locations (sample_payload three_locations) <> []
        /\ forallb raises
             (outcomes (init worker_raise 2 20)
                (sample_payload three_locations)) = true)
    /\ (status j = DONE <->
        job_locations (sample_payload three_locations) = []
        \/ forallb raises
             (outcomes (init worker_raise 2 20)
                (sample_payload three_locations)) = false)
    /\ (error j = None <-> status j = DONE).
Proof.
  apply (failed_iff_all_raise posix_rt (init worker_raise 2 20)
           (sample_payload three_locations)).
  simpl. lia.
Defined.

(** X11: when the worker returns a well-formed record for every location,
    result.locations holds these records in the order of the locations of
    the payload, each with its "screenshot_url" entry added. *)
Theorem results_in_submission_order rt self p job_id tc tu t0 t1 ds :
  (0 < per_job_concurrency self)%Z ->
  outcomes self p = map (fun d => Returns (ODict d)) ds ->
  forallb (fun d => well_formed_result (ODict d)) ds = true ->
  exists j,
    processed rt (fst (submit self p job_id tc tu)) job_id t0 t1 = Some j
    /\ locations (result j)
       = map (fun d => <["screenshot_url" := screenshot_url_of rt p d]> d) ds.
Proof.
  intros HK Hos Hds.
  destruct (processed_fresh rt self p job_id tc tu t0 t1 HK)
    as (j & Hj & _ & _ & Hlocs & _).
  exists j. split; [done|].
  rewrite Hlocs, Hos. by apply successes_all_records.
Qed.

Lemma results_in_submission_order_witness :
  exists j,
    processed posix_rt
      (fst (submit (init worker_scored 2 20) (sample_payload three_locations)
              "3f9a1c0b2d4e5f60" 100 100))
      "3f9a1c0b2d4e5f60" 101 102 = Some j
    /\ locations (result j)
       = map (fun d =>
                <["screenshot_url" :=
                    screenshot_url_of posix_rt
                      (sample_payload three_locations) d]> d)
             [<["score" := VInt 0]> ∅; <["score" := VInt 1]> ∅;
              <["score" := VInt 2]> ∅].
Proof.
  apply (results_in_submission_order posix_rt (init worker_scored 2 20)
           (sample_payload three_locations)).
  - simpl. lia.
  - reflexivity.
  - vm_compute. reflexivity.
Defined.

(** ** The worker loop *)

(** A job that is not canceled, behind a gate that lets tasks pass, is
    processed to its end. *)
Lemma process_job_returns rt self job_id job t0 t1 :
  _jobs self !! job_id = Some job ->
  cancel_requested job = false ->
  per_job_concurrency self <> 0%Z \/ job_locations (payload job) = [] ->
  exists j cs,
    _process_job rt self job_id t0 t1
      = (Normal (set_jobs (<[job_id := j]> (_jobs self)) self), cs)
    /\ (status j = DONE \/ status j = FAILED)
    /\ cancel_requested j = false.
Proof.
  intros Hj Hc Hgate.
  assert (exists j,
            fst (_process_job rt self job_id t0 t1)
              = Normal (set_jobs (<[job_id := j]> (_jobs self)) self)
            /\ (status j = DONE \/ status j = FAILED)) as (j & Hrun & Hst).
  { assert (forall f : flow JobRecord,
              (forall j, f = Normal j -> status j = DONE \/ status j = FAILED) ->
              (forall j, f <> Blocked j) ->
              exists j,
                settle self job_id t1 f
                  = Normal (set_jobs (<[job_id := j]> (_jobs self)) self)
                /\ (status j = DONE \/ status j = FAILED)) as Hsettle.
    { intros f Hn Hb.
      destruct (settle_terminal self job_id t1 f Hn Hb) as (j & ? & ? & _).
      eauto. }
    destruct (Z.lt_trichotomy (per_job_concurrency self) 0)
      as [Hneg|[Hzero|Hpos]].
    - rewrite (process_job_settle _ _ _ _ _ _ Hj).
      rewrite try_body_negative by done. cbn [fst].
      by apply Hsettle.
    - destruct Hgate as [Hgate|Hgate]; [done|].
      rewrite (process_job_settle _ _ _ _ _ _ Hj), Hgate.
      rewrite try_body_empty by lia. cbn [fst].
      apply Hsettle; by apply finalize_terminal.
    - rewrite (process_job_no_cancel _ _ _ _ _ _ Hj Hc Hpos). cbn [fst].
      apply Hsettle; by apply finalize_terminal. }
  destruct (process_job_value rt self job_id job t0 t1 Hj)
    as (j' & Hv & Ha & _).
  rewrite Hrun in Hv. cbn [flow_value] in Hv.
  assert (j = j') as <-.
  { apply (f_equal (fun q => _jobs q !! job_id)) in Hv.
    cbn [_jobs set_jobs] in Hv. rewrite !lookup_insert_eq in Hv. congruence. }
  exists j, (snd (_process_job rt self job_id t0 t1)).
  split_and!; [|done|].
  - rewrite <- Hrun. by destruct (_process_job rt self job_id t0 t1).
  - destruct Ha as (_ & _ & Hcr & _). congruence.
Qed.

(** The loop takes the identifiers of the admission queue one by one, and
    leaves the jobs it has processed DONE or FAILED. *)
Lemma worker_loop_drains_from rt (ids : list string) : forall clock self,
  _running self = true ->
  per_job_concurrency self <> 0%Z ->
  _queue self = ids ->
  (forall job_id j,
     job_id ∈ ids -> _jobs self !! job_id = Some j ->
     cancel_requested j = false) ->
  exists self' cs,
    _worker_loop rt clock (length ids) self = (Normal self', cs)
    /\ _queue self' = []
    /\ _running self' = true
    /\ dom (_jobs self') = dom (_jobs self)
    /\ (forall job_id j,
          job_id ∈ ids -> get self' job_id = Some j ->
          status j = DONE \/ status j = FAILED)
    /\ (forall job_id, job_id ∉ ids -> get self' job_id = get self job_id).
Proof.
  induction ids as [|a rest IH]; intros clock self Hrun HK Hq Hnc.
  - exists self, []. cbn [length _worker_loop]. split_and!; try done.
    intros job_id j Hin. by apply elem_of_nil in Hin.
  - cbn [length _worker_loop]. unfold _worker_loop_step. rewrite Hrun, Hq.
    set (s0 := set_queue rest self).
    destruct (_jobs self !! a) as [job|] eqn:Ha.
    + assert (cancel_requested job = false) as Hc
        by (apply (Hnc a job); [apply elem_of_cons; by left|done]).
      destruct (process_job_returns rt s0 a job (clock 0%nat).1 (clock 0%nat).2)
        as (j & cs & Hp & Hst & Hcj); [done|done|by left|].
      rewrite Hp. set (s1 := set_jobs _ s0).
      destruct (IH (fun i => clock (S i)) s1) as
        (self' & cs' & Hloop & Hq' & Hrun' & Hdom & Hterm & Hframe);
        [done|done|done| |].
      { intros job_id j0 Hin. cbn [s1 s0 _jobs set_jobs set_queue].
        destruct (decide (job_id = a)) as [->|Hne].
        - rewrite lookup_insert_eq. by intros [= <-].
        - rewrite lookup_insert_ne by done.
          apply Hnc. apply elem_of_cons. by right. }
      rewrite Hloop. eexists _, _. split; [done|]. split_and!; try done.
      * rewrite Hdom. cbn [s1 s0 _jobs set_jobs set_queue].
        by apply dom_insert_lookup_L.
      * intros job_id j0 Hin Hget.
        destruct (decide (job_id ∈ rest)) as [Hr|Hr]; [by eapply Hterm|].
        apply elem_of_cons in Hin as [->|Hin]; [|done].
        rewrite (Hframe a Hr) in Hget. unfold get in Hget.
        cbn [s1 s0 _jobs set_jobs set_queue] in Hget.
        rewrite lookup_insert_eq in Hget. by injection Hget as <-.
      * intros job_id Hnin. apply not_elem_of_cons in Hnin as [Hne Hnin].
        rewrite (Hframe job_id Hnin). unfold get.
        cbn [s1 s0 _jobs set_jobs set_queue]. by rewrite lookup_insert_ne.
    + unfold _process_job. cbn [s0 _jobs set_queue]. rewrite Ha.
      destruct (IH (fun i => clock (S i)) s0) as
        (self' & cs' & Hloop & Hq' & Hrun' & Hdom & Hterm & Hframe);
        [done|done|done| |].
      { intros job_id j0 Hin. cbn [s0 _jobs set_queue].
        apply Hnc. apply elem_of_cons. by right. }
      rewrite Hloop. eexists _, _. split; [done|]. split_and!; try done.
      * intros job_id j0 Hin Hget.
        destruct (decide (job_id ∈ rest)) as [Hr|Hr]; [by eapply Hterm|].
        apply elem_of_cons in Hin as [->|Hin]; [|done].
        rewrite (Hframe a Hr) in Hget. unfold get in Hget.
        cbn [s0 _jobs set_queue] in Hget. congruence.
      * intros job_id Hnin. apply not_elem_of_cons in Hnin as [Hne Hnin].
        by rewrite (Hframe job_id Hnin).
Qed.

(** X12: a worker loop that runs for as many iterations as the admission
    queue is long, the cancellation of no queued job having been requested
    and the gate letting tasks pass, empties the queue and returns; every
    queued job that is in the store is then DONE or FAILED, no record is
    added or removed, and the records of the jobs that were not queued are
    as before. *)
Theorem worker_loop_drains rt clock self :
  _running self = true ->
  per_job_concurrency self <> 0%Z ->
  forallb (not_canceled self) (_queue self) = true ->
  exists self' cs,
    _worker_loop rt clock (length (_queue self)) self = (Normal self', cs)
    /\ _queue self' = []
    /\ dom (_jobs self') = dom (_jobs self)
    /\ (forall job_id j,
          job_id ∈ _queue self -> get self' job_id = Some j ->
          status j = DONE \/ status j = FAILED)
    /\ (forall job_id,
          job_id ∉ _queue self -> get self' job_id = get self job_id).
Proof.
  intros Hrun HK Hnc.
  destruct (worker_loop_drains_from rt (_queue self) clock self Hrun HK eq_refl)
    as (self' & cs & Hloop & Hq & _ & Hdom & Hterm & Hframe).
  - intros job_id j Hin Hj.
    rewrite forallb_forall in Hnc.
    specialize (Hnc job_id (proj1 (list_elem_of_In _ _) Hin)).
    unfold not_canceled in Hnc. rewrite Hj in Hnc.
    by apply negb_true_iff in Hnc.
  - exists self', cs. by split_and!.
Qed.

Lemma worker_loop_drains_witness :
  exists self' cs,
    _worker_loop posix_rt sample_clock
      (length (_queue
                 (fst (submit
                         (fst (submit (init worker_second_raises 2 20)
                                 (sample_payload three_locations)
                                 "3f9a1c0b2d4e5f60" 100 100))
                         (sample_payload [])
                         "77aa01bc23de45f6" 110 110))))
      (fst (submit
              (fst (submit (init worker_second_raises 2 20)
                      (sample_payload three_locations)
                      "3f9a1c0b2d4e5f60" 100 100))
              (sample_payload [])
              "77aa01bc23de45f6" 110 110))
    = (Normal self', cs)
    /\ _queue self' = []
    /\ dom (_jobs self')
       = dom (_jobs
                (fst (submit
                        (fst (submit (init worker_second_raises 2 20)
                                (sample_payload three_locations)
                                "3f9a1c0b2d4e5f60" 100 100))
                        (sample_payload [])
                        "77aa01bc23de45f6" 110 110)))
    /\ (forall job_id j,
          job_id ∈ _queue
                     (fst (submit
                             (fst (submit (init worker_second_raises 2 20)
                                     (sample_payload three_locations)
                                     "3f9a1c0b2d4e5f60" 100 100))
                             (sample_payload [])
                             "77aa01bc23de45f6" 110 110)) ->
          get self' job_id = Some j ->
          status j = DONE \/ status j = FAILED)
    /\ (forall job_id,
          job_id ∉ _queue
                     (fst (submit
                             (fst (submit (init worker_second_raises 2 20)
                                     (sample_payload three_locations)
                                     "3f9a1c0b2d4e5f60" 100 100))
                             (sample_payload [])
                             "77aa01bc23de45f6" 110 110)) ->
          get self' job_id
          = get (fst (submit
                        (fst (submit (init worker_second_raises 2 20)
                                (sample_payload three_locations)
                                "3f9a1c0b2d4e5f60" 100 100))
                        (sample_payload [])
                        "77aa01bc23de45f6" 110 110)) job_id).
Proof.
  apply (worker_loop_drains posix_rt sample_clock
           (fst (submit
                   (fst (submit (init worker_second_raises 2 20)
                           (sample_payload three_locations)
                           "3f9a1c0b2d4e5f60" 100 100))
                   (sample_payload [])
                   "77aa01bc23de45f6" 110 110))).
  - reflexivity.
  - simpl. lia.
  - vm_compute. reflexivity.
Defined.

(** X13: jobs are claimed in the order of their submission: of two jobs
    submitted to an idle queue, the first iteration of a worker processes
    the first to its end and leaves the second PENDING, alone in the
    admission queue. *)
Theorem first_submitted_first_processed rt self pa pb a b ta ta' tb tb' t0 t1 :
  _running self = true ->
  _queue self = [] ->
  a <> b ->
  (0 < per_job_concurrency self)%Z ->
  exists self' ja cs,
    _worker_loop_step rt
      (fst (submit (fst (submit self pa a ta ta')) pb b tb tb')) t0 t1
    = (Normal self', cs)
    /\ _queue self' = [b]
    /\ get self' a = Some ja
    /\ (status ja = DONE \/ status ja = FAILED)
    /\ get self' b = Some (fresh_job pb tb tb').
Proof.
  intros Hrun Hq Hne HK.
  set (s2 := fst (submit (fst (submit self pa a ta ta')) pb b tb tb')).
  assert (_running s2 = true) as Hr2 by done.
  assert (_queue s2 = [a; b]) as Hq2
    by (cbn [s2 submit fst set_queue set_jobs _queue]; by rewrite Hq).
  assert (_jobs s2 !! a = Some (fresh_job pa ta ta')) as Ha.
  { cbn [s2 submit fst set_queue set_jobs _jobs].
    rewrite lookup_insert_ne by done. by rewrite lookup_insert_eq. }
  assert (_jobs s2 !! b = Some (fresh_job pb tb tb')) as Hb.
  { cbn [s2 submit fst set_queue set_jobs _jobs]. by rewrite lookup_insert_eq. }
  unfold _worker_loop_step. rewrite Hr2, Hq2.
  destruct (process_job_returns rt (set_queue [b] s2) a (fresh_job pa ta ta')
              t0 t1)
    as (ja & cs & Hp & Hst & _); [done|done|left; simpl; lia|].
  rewrite Hp. eexists _, ja, cs. split; [done|].
  unfold get. cbn [set_jobs set_queue _jobs _queue]. split_and!; try done.
  - by rewrite lookup_insert_eq.
  - by rewrite lookup_insert_ne.
Qed.

Lemma first_submitted_first_processed_witness :
  exists self' ja cs,
    _worker_loop_step posix_rt
      (fst (submit
              (fst (submit (init worker_ok 2 20) (sample_payload three_locations)
                      "3f9a1c0b2d4e5f60" 100 100))
              (sample_payload []) "77aa01bc23de45f6" 110 110))
      120 121
    = (Normal self', cs)
    /\ _queue self' = ["77aa01bc23de45f6"]
    /\ get self' "3f9a1c0b2d4e5f60" = Some ja
    /\ (status ja = DONE \/ status ja = FAILED)
    /\ get self' "77aa01bc23de45f6"
       = Some (fresh_job (sample_payload []) 110 110).
Proof.
  apply (first_submitted_first_processed posix_rt (init worker_ok 2 20)
           (sample_payload three_locations) (sample_payload [])
           "3f9a1c0b2d4e5f60" "77aa01bc23de45f6" 100 100 110 110 120 121).
  - reflexivity.
  - reflexivity.
  - discriminate.
  - simpl. lia.
Defined.

(** * The helpers of the worker *)

(** ** [classify_traffic_color] *)

Lemma within_spec (r0 g0 b0 r1 g1 b1 r g b : Z) :
  within (r0, g0, b0) (r1, g1, b1) (r, g, b) = true <->
  (r0 <= r <= r1 /\ g0 <= g <= g1 /\ b0 <= b <= b1)%Z.
Proof. unfold within. rewrite !andb_true_iff, !Z.leb_le. tauto. Qed.

Lemma classify_in_names table (c : rgb) :
  classify_in table c = "gray" \/ In (classify_in table c) (map fst table).
Proof.
  induction table as [|[name [lo hi]] table IH]; [by left|].
  cbn [classify_in map fst]. destruct (within lo hi c).
  - right. by left.
  - destruct IH as [IH|IH]; [by left|right; by right].
Qed.

(** X15: whatever the colour, [classify_traffic_color] returns one of the
    five keys of [TRAFFIC_SCORES], so the lookup of the score of a
    classified pixel never fails; the score is 0, 30, 70 or 100, and it is
    0 exactly for "gray". *)
Theorem classified_color_has_score (c : rgb) :
  In (classify_traffic_color c) ["dark_red"; "red"; "yellow"; "green"; "gray"]
  /\ exists s,
       TRAFFIC_SCORES !! classify_traffic_color c = Some s
       /\ In s [0; 30; 70; 100]%Z
       /\ (s = 0%Z <-> classify_traffic_color c = "gray").
Proof.
  unfold classify_traffic_color.
  pose proof (classify_in_names TRAFFIC_COLORS c) as H.
  set (x := classify_in TRAFFIC_COLORS c) in *. clearbody x.
  cbn [map fst TRAFFIC_COLORS In] in H.
  destruct H as [->|[<-|[<-|[<-|[<-|[<-|[]]]]]]];
    (split; [simpl; tauto|]);
    eexists; (split; [by vm_compute|]); (split; [simpl; tauto|done]).
Qed.

Ltac other_range :=
  match goal with
  | |- context [within ?lo ?hi ?c] =>
      let E := fresh "E" in
      destruct (within lo hi c) eqn:E;
      [first [done | apply within_spec in E; lia] | try congruence]
  end.

(** X16: the five ranges of [TRAFFIC_COLORS] do not overlap, so the order
    of the dictionary is immaterial: a colour inside a range is classified
    as that range, and a colour inside no range is "gray". *)
Theorem classify_by_range (c : rgb) :
  (forall traffic_type min_rgb max_rgb,
     In (traffic_type, (min_rgb, max_rgb)) TRAFFIC_COLORS ->
     within min_rgb max_rgb c = true ->
     classify_traffic_color c = traffic_type)
  /\ ((forall traffic_type min_rgb max_rgb,
         In (traffic_type, (min_rgb, max_rgb)) TRAFFIC_COLORS ->
         within min_rgb max_rgb c = false) ->
      classify_traffic_color c = "gray").
Proof.
  destruct c as [[r g] b]. split.
  - intros traffic_type min_rgb max_rgb Hin Hw.
    simpl in Hin.
    destruct Hin as [Hin|[Hin|[Hin|[Hin|[Hin|[]]]]]];
      simplify_eq;
      pose proof (proj1 (within_spec _ _ _ _ _ _ _ _ _) Hw) as Hb;
      unfold classify_traffic_color, TRAFFIC_COLORS; cbn [classify_in];
      repeat other_range.
  - intros Hout.
    unfold classify_traffic_color.
    unfold TRAFFIC_COLORS in *. cbn [classify_in].
    rewrite (Hout "dark_red") by (simpl; tauto).
    rewrite (Hout "red") by (simpl; tauto).
    rewrite (Hout "yellow") by (simpl; tauto).
    rewrite (Hout "green") by (simpl; tauto).
    by rewrite (Hout "gray") by (simpl; tauto).
Qed.

Lemma classify_by_range_witness :
  classify_traffic_color (240, 80, 60)%Z = "red".
Proof.
  apply (proj1 (classify_by_range (240, 80, 60)%Z)
           "red" (220, 50, 40)%Z (255, 110, 90)%Z).
  - simpl. tauto.
  - reflexivity.
Defined.

(** ** [retry_exception] *)

Lemma retry_attempts_spec callback : forall remaining attempt,
  let '(success, calls, sleeps) := retry_attempts callback attempt remaining in
  success = existsb callback (seq attempt remaining)
  /\ (calls <= remaining)%nat
  /\ (forall i, (attempt <= i < attempt + calls - (if success then 1 else 0))%nat ->
        callback i = false)
  /\ (if success
      then (1 <= calls)%nat /\ callback (attempt + calls - 1)%nat = true
      else calls = remaining)
  /\ sleeps
     = ((attempt + calls - (if success then 1 else 0)) `min` 2
        - attempt `min` 2)%nat.
Proof.
  induction remaining as [|remaining IH]; intros attempt.
  - simpl. split_and!; try done; try lia; intros i Hi; lia.
  - cbn [retry_attempts seq existsb].
    destruct (callback attempt) eqn:Hcb.
    + simpl. split_and!; try done; try lia.
      all: try (intros i Hi; lia).
      by replace (attempt + 1 - 1)%nat with attempt by lia.
    + specialize (IH (S attempt)).
      destruct (retry_attempts callback (S attempt) remaining)
        as [[success calls] sleeps].
      destruct IH as (Hs & Hc & Hfail & Hlast & Hsl).
      simpl. split; [done|]. split; [lia|]. split; [|split].
      * intros i Hi. destruct (decide (i = attempt)) as [->|Hne]; [done|].
        apply Hfail. destruct success; lia.
      * destruct success; [|lia].
        destruct Hlast as [? Hlast]. split; [lia|].
        by replace (attempt + S calls - 1)%nat
          with (S attempt + calls - 1)%nat by lia.
      * rewrite Hsl. destruct (attempt <? 2)%nat eqn:Hlt;
          [apply Nat.ltb_lt in Hlt|apply Nat.ltb_ge in Hlt];
          destruct success; lia.
Qed.

(** X17: [retry_exception] returns True exactly when one of the first
    retry_count calls of the callback returns; it calls the callback until
    the first call that returns and no further, retry_count times when
    every call raises, and not at all when retry_count is not positive. *)
Theorem retry_exception_calls callback retry_count :
  let '(success, calls, sleeps) := retry_exception callback retry_count in
  success = existsb callback (seq 0 (Z.to_nat retry_count))
  /\ (calls <= Z.to_nat retry_count)%nat
  /\ (forall i, (i < calls - (if success then 1 else 0))%nat ->
        callback i = false)
  /\ (if success
      then (1 <= calls)%nat /\ callback (calls - 1)%nat = true
      else calls = Z.to_nat retry_count)
  /\ ((retry_count <= 0)%Z -> success = false /\ calls = 0%nat).
Proof.
  unfold retry_exception.
  pose proof (retry_attempts_spec callback (Z.to_nat retry_count) 0) as H.
  destruct (retry_attempts callback 0 (Z.to_nat retry_count))
    as [[success calls] sleeps].
  destruct H as (Hs & Hc & Hfail & Hlast & _).
  split_and!; try done.
  - intros i Hi. apply Hfail. lia.
  - intros Hneg. replace (Z.to_nat retry_count) with 0%nat in * by lia.
    simpl in Hs. subst success. split; [done|lia].
Qed.

(** X18: [retry_exception] sleeps one second after a failed attempt only
    if that attempt is one of the first two: it sleeps min(f, 2) times for
    f failed attempts, whatever retry_count is.  With the default of three
    attempts it does not sleep after the last one; with a single attempt
    that fails it does. *)
Theorem retry_exception_sleeps callback retry_count :
  let '(success, calls, sleeps) := retry_exception callback retry_count in
  sleeps = ((calls - (if success then 1 else 0)) `min` 2)%nat
  /\ (sleeps <= 2)%nat.
Proof.
  unfold retry_exception.
  pose proof (retry_attempts_spec callback (Z.to_nat retry_count) 0) as H.
  destruct (retry_attempts callback 0 (Z.to_nat retry_count))
    as [[success calls] sleeps].
  destruct H as (_ & _ & _ & _ & Hsl). simpl in Hsl. lia.
Qed.

(** A single attempt that fails is followed by a sleep; three failed
    attempts are followed by two sleeps, five by two as well. *)
Example retry_exception_sleeps_examples :
  retry_exception (fun _ => false) 1 = (false, 1%nat, 1%nat)
  /\ retry_exception (fun _ => false) 3 = (false, 3%nat, 2%nat)
  /\ retry_exception (fun _ => false) 5 = (false, 5%nat, 2%nat)
  /\ retry_exception (fun i => (i =? 1)%nat) 3 = (true, 2%nat, 1%nat).
Proof. by vm_compute. Qed.

(** * The handler that submits jobs *)

Lemma lookup_map {A B : Type} (f : A -> B) (l : list A) : forall k,
  map f l !! k = f <$> l !! k.
Proof. induction l as [|x l IH]; intros [|k]; simpl; done. Qed.

Lemma location_dict_direction (loc : LocationItem) :
  exists s,
    dict_get_default (location_dict loc) "storefront_direction" (VStr "north")
      = VStr s
    /\ s <> "".
Proof.
  unfold dict_get_default, location_dict.
  rewrite !lookup_insert_ne by done. rewrite lookup_insert_eq. cbn [default].
  unfold py_or. destruct (li_storefront_direction loc) as [s|]; simpl.
  - destruct (String.eqb s "") eqn:Hs; simpl.
    + by exists "north".
    + exists s. split; [done|]. intros ->. by rewrite String.eqb_refl in Hs.
  - by exists "north".
Qed.

(** X19: [analyze_batch] refuses a request without locations and a request
    with more than twenty, in both cases with status 400 and without
    touching the queue or the table of jobs. *)
Theorem analyze_batch_rejects queue db req base_url user_id job_id tc tu ok :
  req_locations req = [] \/ (20 < length (req_locations req))%nat ->
  analyze_batch queue db req base_url user_id job_id tc tu ok
  = (queue, db,
     HTTPException 400
       (if (length (req_locations req) =? 0)%nat
        then "No locations provided"
        else "Max 20 locations per request")).
Proof.
  intros H. unfold analyze_batch.
  destruct (req_locations req) as [|loc locs] eqn:Hlocs; [done|].
  destruct H as [H|H]; [done|].
  apply Nat.ltb_lt in H. by rewrite H.
Qed.

Lemma analyze_batch_rejects_witness :
  analyze_batch (init worker_ok 2 20) []
    {| req_locations := []; req_proxy := None |}
    "http://host/" 7 "3f9a1c0b2d4e5f60" 100 100 true
  = (init worker_ok 2 20, [],
     HTTPException 400
       (if (length (req_locations {| req_locations := []; req_proxy := None |})
            =? 0)%nat
        then "No locations provided"
        else "Max 20 locations per request")).
Proof.
  apply (analyze_batch_rejects (init worker_ok 2 20) []
           {| req_locations := []; req_proxy := None |}).
  left. reflexivity.
Defined.

(** X20: [analyze_batch] accepts a request with one to twenty locations:
    it submits one PENDING job whose payload holds all the locations of
    the request in their order, puts its identifier at the back of the
    admission queue, answers with that identifier, the status "pending" and
    the number of locations, and adds a row to the table of jobs unless the
    database fails, which changes nothing else. *)
Theorem analyze_batch_accepts queue db req base_url user_id job_id tc tu ok :
  (1 <= length (req_locations req) <= 20)%nat ->
  exists queue' db',
    analyze_batch queue db req base_url user_id job_id tc tu ok
    = (queue', db',
       Respond {| ba_job_id := job_id; ba_status := "pending";
                  ba_locations_count := length (req_locations req) |})
    /\ get queue' job_id = Some (fresh_job (job_payload req base_url) tc tu)
    /\ job_locations (job_payload req base_url)
       = map location_dict (req_locations req)
    /\ _queue queue' = _queue queue ++ [job_id]
    /\ (forall other, other <> job_id -> get queue' other = get queue other)
    /\ db' = (if ok
              then db ++ [{| row_uuid := job_id; row_status := "pending";
                             row_user_id := user_id |}]
              else db).
Proof.
  intros [Hlo Hhi]. unfold analyze_batch.
  destruct (req_locations req) as [|loc locs] eqn:Hlocs; [simpl in Hlo; lia|].
  destruct (20 <? length (loc :: locs))%nat eqn:Hlt;
    [apply Nat.ltb_lt in Hlt; lia|].
  cbn [submit]. eexists _, _. split; [done|].
  unfold get. cbn [set_queue set_jobs _jobs _queue]. split_and!; try done.
  - by rewrite lookup_insert_eq.
  - unfold job_locations, payload_locations, job_payload. cbn [p_locations default].
    rewrite Hlocs. apply take_ge. by rewrite length_map.
  - intros other Hne. by rewrite lookup_insert_ne.
Qed.

Lemma analyze_batch_accepts_witness :
  exists queue' db',
    analyze_batch (init worker_ok 2 20) []
      {| req_locations :=
           [{| li_lat := VInt 24; li_lng := VInt 46;
               li_storefront_direction := None;
               li_day := Some "Monday"; li_time := Some "6PM" |}];
         req_proxy := None |}
      "http://host/" 7 "3f9a1c0b2d4e5f60" 100 100 true
    = (queue', db',
       Respond
         {| ba_job_id := "3f9a1c0b2d4e5f60"; ba_status := "pending";
            ba_locations_count :=
              length
                (req_locations
                   {| req_locations :=
                        [{| li_lat := VInt 24; li_lng := VInt 46;
                            li_storefront_direction := None;
                            li_day := Some "Monday"; li_time := Some "6PM" |}];
                      req_proxy := None |}) |})
    /\ get queue' "3f9a1c0b2d4e5f60"
       = Some (fresh_job
                 (job_payload
                    {| req_locations :=
                         [{| li_lat := VInt 24; li_lng := VInt 46;
                             li_storefront_direction := None;
                             li_day := Some "Monday"; li_time := Some "6PM" |}];
                       req_proxy := None |} "http://host/") 100 100)
    /\ job_locations
         (job_payload
            {| req_locations :=
                 [{| li_lat := VInt 24; li_lng := VInt 46;
                     li_storefront_direction := None;
                     li_day := Some "Monday"; li_time := Some "6PM" |}];
               req_proxy := None |} "http://host/")
       = map location_dict
           (req_locations
              {| req_locations :=
                   [{| li_lat := VInt 24; li_lng := VInt 46;
                       li_storefront_direction := None;
                       li_day := Some "Monday"; li_time := Some "6PM" |}];
                 req_proxy := None |})
    /\ _queue queue' = _queue (init worker_ok 2 20) ++ ["3f9a1c0b2d4e5f60"]
    /\ (forall other, other <> "3f9a1c0b2d4e5f60" ->
          get queue' other = get (init worker_ok 2 20) other)
    /\ db' = (if true
              then [] ++ [{| row_uuid := "3f9a1c0b2d4e5f60";
                             row_status := "pending"; row_user_id := 7 |}]
              else []).
Proof.
  apply (analyze_batch_accepts (init worker_ok 2 20) []
           {| req_locations :=
                [{| li_lat := VInt 24; li_lng := VInt 46;
                    li_storefront_direction := None;
                    li_day := Some "Monday"; li_time := Some "6PM" |}];
              req_proxy := None |}
           "http://host/" 7 "3f9a1c0b2d4e5f60" 100 100 true).
  simpl. lia.
Defined.

Lemma analyze_batch_queue queue db req base_url user_id job_id tc tu ok :
  (1 <= length (req_locations req) <= 20)%nat ->
  fst (fst (analyze_batch queue db req base_url user_id job_id tc tu ok))
  = fst (submit queue (job_payload req base_url) job_id tc tu).
Proof.
  intros [Hlo Hhi]. unfold analyze_batch.
  destruct (req_locations req) as [|loc locs] eqn:Hlocs; [simpl in Hlo; lia|].
  destruct (20 <? length (loc :: locs))%nat eqn:Hlt;
    [apply Nat.ltb_lt in Hlt; lia|].
  done.
Qed.

(** X21: a job that [analyze_batch] has submitted and that is then
    processed without a cancellation has every location of the request
    handed to the worker, none being cut off: there are as many calls as
    the request has locations, completed is that number, and every call
    carries a storefront direction that is a non-empty string ("north" when
    the request gave none). *)
Theorem batch_job_processed rt queue db req base_url user_id job_id tc tu ok
    t0 t1 :
  (1 <= length (req_locations req) <= 20)%nat ->
  (0 < per_job_concurrency queue)%Z ->
  exists j,
    processed rt (fst (fst (analyze_batch queue db req base_url user_id
                        job_id tc tu ok)))
      job_id t0 t1 = Some j
    /\ completed j = length (req_locations req)
    /\ (status j = DONE \/ status j = FAILED)
    /\ length (snd (_process_job rt (fst (fst (analyze_batch queue db req base_url user_id
                        job_id tc tu ok)))
                      job_id t0 t1))
       = length (req_locations req)
    /\ Forall (fun c : call =>
                 exists s, storefront_direction (snd c) = VStr s /\ s <> "")
              (snd (_process_job rt (fst (fst (analyze_batch queue db req base_url user_id
                        job_id tc tu ok)))
                      job_id t0 t1)).
Proof.
  intros Hn HK. rewrite (analyze_batch_queue _ _ _ _ _ _ _ _ _ Hn).
  destruct Hn as [Hlo Hhi].
  destruct (fresh_job_run rt queue (job_payload req base_url) job_id tc tu
              t0 t1 HK)
    as (j & calls & Hrun & Hcalls & Hlen & Hcompl & Hst).
  assert (length (payload_locations (job_payload req base_url))
          = length (req_locations req)) as Hn
    by (unfold payload_locations, job_payload; simpl; apply length_map).
  rewrite Hn in Hlen, Hcompl.
  exists j. unfold processed. rewrite Hrun. cbn [fst snd]. rewrite get_put.
  split_and!; try done; try lia.
  apply Forall_lookup. intros k c Hk.
  rewrite Hcalls in Hk. destruct (k <? 20)%nat; [|done].
  unfold payload_locations, job_payload in Hk. cbn [p_locations default] in Hk.
  unfold id in Hk. rewrite lookup_map in Hk.
  destruct (req_locations req !! k) as [loc|]; [|done].
  simpl in Hk. injection Hk as <-. cbn [snd storefront_direction].
  apply location_dict_direction.
Qed.

Lemma batch_job_processed_witness :
  exists j,
    processed posix_rt (fst (fst (analyze_batch (init worker_ok 2 20) [] 
           {| req_locations :=
                [{| li_lat := VInt 24; li_lng := VInt 46;
                    li_storefront_direction := None;
                    li_day := Some "Monday"; li_time := Some "6PM" |}];
              req_proxy := None |} "http://host/" 7
                        "3f9a1c0b2d4e5f60" 100 100 true)))
      "3f9a1c0b2d4e5f60" 101 102 = Some j
    /\ completed j = length (req_locations 
           {| req_locations :=
                [{| li_lat := VInt 24; li_lng := VInt 46;
                    li_storefront_direction := None;
                    li_day := Some "Monday"; li_time := Some "6PM" |}];
              req_proxy := None |})
    /\ (status j = DONE \/ status j = FAILED)
    /\ length (snd (_process_job posix_rt (fst (fst (analyze_batch (init worker_ok 2 20) [] 
           {| req_locations :=
                [{| li_lat := VInt 24; li_lng := VInt 46;
                    li_storefront_direction := None;
                    li_day := Some "Monday"; li_time := Some "6PM" |}];
              req_proxy := None |} "http://host/" 7
                        "3f9a1c0b2d4e5f60" 100 100 true)))
                      "3f9a1c0b2d4e5f60" 101 102))
       = length (req_locations 
           {| req_locations :=
                [{| li_lat := VInt 24; li_lng := VInt 46;
                    li_storefront_direction := None;
                    li_day := Some "Monday"; li_time := Some "6PM" |}];
              req_proxy := None |})
    /\ Forall (fun c : call =>
                 exists s, storefront_direction (snd c) = VStr s /\ s <> "")
              (snd (_process_job posix_rt (fst (fst (analyze_batch (init worker_ok 2 20) [] 
           {| req_locations :=
                [{| li_lat := VInt 24; li_lng := VInt 46;
                    li_storefront_direction := None;
                    li_day := Some "Monday"; li_time := Some "6PM" |}];
              req_proxy := None |} "http://host/" 7
                        "3f9a1c0b2d4e5f60" 100 100 true)))
                      "3f9a1c0b2d4e5f60" 101 102)).
Proof.
  apply (batch_job_processed posix_rt (init worker_ok 2 20) []
           {| req_locations :=
                [{| li_lat := VInt 24; li_lng := VInt 46;
                    li_storefront_direction := None;
                    li_day := Some "Monday"; li_time := Some "6PM" |}];
              req_proxy := None |}
           "http://host/" 7 "3f9a1c0b2d4e5f60" 100 100 true 101 102).
  - simpl. lia.
  - simpl. lia.
Defined.

(** * Payloads whose locations cannot be sliced *)

Lemma with_entry_of (j : JobRecord) : with_entry (entry_of (payload j)) j = j.
Proof.
  destruct j as [st [locs prx base] res err c f ca ua cr lg].
  unfold with_entry, entry_of. simpl. by destruct locs.
Qed.

Lemma slice_entry_of (p : Payload) :
  slice_locations (entry_of p) = inl (job_locations p).
Proof.
  unfold slice_locations, entry_of, job_locations, payload_locations.
  by destruct (p_locations p).
Qed.

(** On a payload that follows the documentation, [_process_job_on] is
    [_process_job]: the same calls, and the same record put in the store. *)
Lemma process_job_on_documented rt self job_id job t0 t1 :
  _jobs self !! job_id = Some job ->
  let put j := set_jobs (<[job_id := sj_record j]> (_jobs self)) self in
  let run :=
    _process_job_on rt self
      {| sj_entry := entry_of (payload job); sj_record := job |} t0 t1 in
  _process_job rt self job_id t0 t1
  = (match fst run with
     | Normal j => Normal (put j)
     | Raised j e => Raised (put j) e
     | Blocked j => Blocked (put j)
     end, snd run).
Proof.
  intros Hj put run. rewrite (process_job_settle _ _ _ _ _ _ Hj).
  unfold run, _process_job_on. cbn [sj_entry sj_record].
  rewrite slice_entry_of.
  change (entry_of (payload job))
    with (entry_of (payload (set_updated_at t0 (set_status RUNNING job)))).
  rewrite with_entry_of.
  by destruct (try_body _ _ _ _) as [[j|j e|j] cs].
Qed.

(** C2, on the code: the slice of the locations (line 138) stands before
    the [try] statement.  For a payload whose "locations" is [None], a
    [bool] or an [int] it raises [TypeError]; neither the [except] nor the
    [finally] clause runs, no location is handed to the worker, and the job
    is left RUNNING, which is not terminal, whether its cancellation was
    requested or not. *)
Theorem unsliceable_locations_left_running rt self v rec t0 t1 :
  exists j,
    _process_job_on rt self
      {| sj_entry := OtherEntry v; sj_record := rec |} t0 t1
    = (Raised j
         ("'" +:+ unsliceable_type_name v +:+ "' object is not subscriptable"),
       [])
    /\ status (sj_record j) = RUNNING
    /\ is_terminal (status (sj_record j)) = false
    /\ updated_at (sj_record j) = t0
    /\ error (sj_record j) = error rec
    /\ cancel_requested (sj_record j) = cancel_requested rec
    /\ completed (sj_record j) = completed rec
    /\ failure (sj_record j) = failure rec
    /\ result (sj_record j) = result rec.
Proof. eexists. by split_and!. Qed.

(** The payload [{"locations": None}], submitted and claimed. *)
Example none_locations_left_running :
  _process_job_on posix_rt (init worker_ok 2 20)
    {| sj_entry := OtherEntry UNone;
       sj_record := fresh_job (sample_payload []) 100 100 |} 101 102
  = (Raised
       {| sj_entry := OtherEntry UNone;
          sj_record :=
            set_updated_at 101
              (set_status RUNNING (fresh_job (sample_payload []) 100 100)) |}
       "'NoneType' object is not subscriptable",
     []).
Proof. reflexivity. Qed.
